(** * Log-search gateway: request composition and pagination

    A shallow embedding of the two route handlers of
    [DOCKER_EXAMPLE/src/index.js] ([POST /search] and [POST /close-pit])
    and of the helper [asArray], followed by the properties of the
    specification checked against them.

    JavaScript values are embedded as a tree type; the handlers are
    functions in a small monad that threads the list of calls made to the
    search-engine client and carries thrown values, so that the
    [try]/[catch] of each handler is modelled as written. *)

From Stdlib Require Import List String Ascii Bool NArith ZArith QArith Lia.
Import ListNotations.

Set Implicit Arguments.
Set Warnings "-register-all".

Local Open Scope string_scope.
Local Open Scope list_scope.

(* ================================================================== *)
(** * JavaScript values *)
(* ================================================================== *)

(** ** Strings

    A JavaScript string is a sequence of UTF-16 code units.  The literals
    of the source are all ASCII and are written as Rocq strings, injected
    by [lit]. *)

Definition code_unit := N.
Definition jsstring := list code_unit.

Definition lit (s : string) : jsstring :=
  map N_of_ascii (list_ascii_of_string s).

Coercion lit : string >-> jsstring.

Fixpoint str_eqb (a b : jsstring) : bool :=
  match a, b with
  | [], [] => true
  | x :: a', y :: b' => N.eqb x y && str_eqb a' b'
  | _, _ => false
  end.

(** ** Numbers

    A JavaScript number is a double.  Every finite double is a rational,
    and the handlers only test numbers for truthiness and take a minimum,
    so the finite ones are embedded as rationals ([-0] and [+0] are both
    [Fin 0]: they are equally falsy). *)

Inductive number : Type :=
| NaN
| Inf (negative : bool)
| Fin (q : Q).

Definition num_truthy (n : number) : bool :=
  match n with
  | NaN => false
  | Inf _ => true
  | Fin q => negb (Qeq_bool q 0)
  end.

(** [a <= b] on numbers, false as soon as one side is [NaN]. *)
Definition num_leb (a b : number) : bool :=
  match a, b with
  | NaN, _ | _, NaN => false
  | Inf true, _ => true
  | _, Inf false => true
  | Inf false, _ => false
  | _, Inf true => false
  | Fin x, Fin y => Qle_bool x y
  end.

(** [Math.min(a, b)] for two arguments. *)
Definition Math_min (a b : number) : number :=
  match a, b with
  | NaN, _ | _, NaN => NaN
  | _, _ => if num_leb a b then a else b
  end.

Definition num_of_Z (z : Z) : number := Fin (inject_Z z).

(** ** Values

    Requests, engine bodies, engine answers and responses are JSON-like
    trees.  An object is the list of its own properties in insertion
    order; a property that holds [undefined] is kept (it is
    [JSON.stringify] that drops it when the response is sent). *)

Inductive value : Type :=
| VUndef
| VNull
| VBool (b : bool)
| VNum (n : number)
| VStr (s : jsstring)
| VArr (elems : list value)
| VObj (props : list (jsstring * value)).

Definition VInt (z : Z) : value := VNum (num_of_Z z).
Definition VTrue : value := VBool true.
Definition VFalse : value := VBool false.

(** ToBoolean. *)
Definition truthy (v : value) : bool :=
  match v with
  | VUndef | VNull => false
  | VBool b => b
  | VNum n => num_truthy n
  | VStr s => match s with [] => false | _ => true end
  | VArr _ | VObj _ => true
  end.

(** [a || b] *)
Definition or_else (a b : value) : value := if truthy a then a else b.

(** [v == null] *)
Definition nullish (v : value) : bool :=
  match v with VUndef | VNull => true | _ => false end.

(** [Array.isArray(v)] *)
Definition isArray (v : value) : bool :=
  match v with VArr _ => true | _ => false end.

(** Own-property lookup in a property list. *)
Fixpoint lookup (k : jsstring) (props : list (jsstring * value)) : option value :=
  match props with
  | [] => None
  | (k', v) :: rest => if str_eqb k k' then Some v else lookup k rest
  end.

Definition has_own (k : jsstring) (props : list (jsstring * value)) : bool :=
  match lookup k props with Some _ => true | None => false end.

(** [o.k] on a value that is neither [undefined] nor [null], for the
    property names the handlers read.  None of those names is an array
    index or [length], and none is defined by a prototype except [sort]
    (read on each engine hit, which the engine returns as an object), so
    anything but an object answers [undefined]. *)
Definition prop (o : value) (k : jsstring) : value :=
  match o with
  | VObj props => match lookup k props with Some v => v | None => VUndef end
  | _ => VUndef
  end.

(** [o?.k] *)
Definition opt (o : value) (k : jsstring) : value :=
  if nullish o then VUndef else prop o k.

(** [o?.[0]] *)
Definition opt_index0 (o : value) : value :=
  match o with
  | VUndef | VNull => VUndef
  | VArr (x :: _) => x
  | VStr (c :: _) => VStr [c]
  | VObj _ => prop o "0"
  | _ => VUndef
  end.

(** [o.k = v] on an object; property order is that of first insertion. *)
Fixpoint assign (props : list (jsstring * value)) (k : jsstring) (v : value)
  : list (jsstring * value) :=
  match props with
  | [] => [(k, v)]
  | (k', v') :: rest =>
      if str_eqb k k' then (k', v) :: rest else (k', v') :: assign rest k v
  end.

Definition set_prop (o : value) (k : jsstring) (v : value) : value :=
  match o with
  | VObj props => VObj (assign props k v)
  | _ => o
  end.

(** [{ ...o, k: v }] for the object spread of the source, whose operand
    is an object the handler built itself or the empty object: the own
    properties of [o], then [k]. *)
Definition spread_with (o : value) (k : jsstring) (v : value) : value :=
  match o with
  | VObj props => VObj (assign props k v)
  | _ => VObj [(k, v)]
  end.

(** A destructuring default: [{ k = d } = o]. *)
Definition field_or (o : value) (k : jsstring) (d : value) : value :=
  match prop o k with
  | VUndef => d
  | v => v
  end.

(* ================================================================== *)
(** * Completions and the handler monad *)
(* ================================================================== *)

(** An evaluation either yields a result or throws a value. *)
Inductive completion (A : Type) : Type :=
| Normal (a : A)
| Throw (thrown : value).

Arguments Normal {A} a.
Arguments Throw {A} thrown.

(** Error objects: only [message] is read by the handlers' [catch]
    blocks.  The texts are those of V8; only their being non-empty
    matters below. *)
Definition js_error (message : jsstring) : value :=
  VObj [(lit "message", VStr message)].

Definition TypeError := js_error.
Definition ReferenceError := js_error.

Definition cbind {A B} (c : completion A) (f : A -> completion B) : completion B :=
  match c with
  | Normal a => f a
  | Throw e => Throw e
  end.

(** Calls made to the engine client, in the order they are made. *)
Inductive call : Type :=
| OpenPointInTime (params : value)
| Search (params : value)
| ClosePointInTime (params : value).

(** An [async] handler body: the calls made so far are threaded, a
    rejected [await] throws. *)
Definition Js (A : Type) : Type := list call -> completion A * list call.

Definition ret {A} (a : A) : Js A := fun tr => (Normal a, tr).
Definition throw {A} (e : value) : Js A := fun tr => (Throw e, tr).
Definition lift {A} (c : completion A) : Js A := fun tr => (c, tr).

Definition bind {A B} (m : Js A) (f : A -> Js B) : Js B :=
  fun tr =>
    match m tr with
    | (Normal a, tr') => f a tr'
    | (Throw e, tr') => (Throw e, tr')
    end.

Declare Scope js_scope.
Delimit Scope js_scope with js.
Notation "x <- m ;; k" := (bind m (fun x => k))
  (at level 61, m at next level, right associativity) : js_scope.
Notation "x <~ c ;; k" := (cbind c (fun x => k))
  (at level 61, c at next level, right associativity) : js_scope.

(** The engine client [es]: each method answers a resolved value or
    rejects with an error. *)
Record Client : Type := {
  openPointInTime : value -> completion value;
  search : value -> completion value;
  closePointInTime : value -> completion value
}.

(** [await es.m(params)] *)
Definition await (c : value -> call) (method : value -> completion value)
  (params : value) : Js value :=
  fun tr => (method params, tr ++ [c params]).

(** What a handler hands to [res]: the status (200 unless [res.status]
    was called) and the argument of [res.json]. *)
Record response : Type := {
  status : value;
  payload : value
}.

Definition res_json (body : value) : response :=
  {| status := VInt 200; payload := body |}.

Definition res_status_json (code body : value) : response :=
  {| status := code; payload := body |}.

(** A property of an object literal whose key is a literal of the source. *)
Notation "k =: v" := (pair (lit k) v) (at level 60, no associativity).

(** [v.length] of an array, as the number it is. *)
Definition length_of (v : value) : value :=
  match v with
  | VArr elems => VInt (Z.of_nat (List.length elems))
  | VStr s => VInt (Z.of_nat (List.length s))
  | _ => VUndef
  end.

(** [o.k] where [o] may be [undefined] or [null]: the read throws. *)
Definition member (o : value) (k : string) : completion value :=
  match o with
  | VUndef =>
      Throw (TypeError (lit ("Cannot read properties of undefined (reading '"
                               ++ k ++ "')")%string))
  | VNull =>
      Throw (TypeError (lit ("Cannot read properties of null (reading '"
                               ++ k ++ "')")%string))
  | _ => Normal (prop o k)
  end.

(** Reading an identifier: a [ReferenceError] when nothing binds it. *)
Definition identifier (name : string) (binding : option value) : completion value :=
  match binding with
  | Some v => Normal v
  | None => Throw (ReferenceError (lit (name ++ " is not defined")%string))
  end.

(** [a.map(f)] where [f] may throw: the first throw wins. *)
Fixpoint map_c {A B} (f : A -> completion B) (l : list A) : completion (list B) :=
  match l with
  | [] => Normal []
  | x :: rest =>
      cbind (f x) (fun y => cbind (map_c f rest) (fun ys => Normal (y :: ys)))
  end.

(* ================================================================== *)
(** * The module [index.js] *)
(* ================================================================== *)

(** The declaration [const INDEX = process.env.LOG_INDEX_PATTERN || ...]
    (source line 28) is commented out: nothing binds the identifier
    [INDEX], which the search handler still reads. *)
Definition INDEX : option value := None.

(** [function asArray(v)] *)
Definition asArray (v : value) : value :=
  if nullish v then VArr []
  else if isArray v then v else VArr [v].

(** ** The pattern of the fuzzy leg

    The negated class of the source lists [\w], [\s] and the double
    quote.  Without the [u] flag it is matched code unit by code unit. *)

(** [\w] *)
Definition is_word (c : code_unit) : bool :=
  ((48 <=? c) && (c <=? 57) || (65 <=? c) && (c <=? 90) || (c =? 95)
   || (97 <=? c) && (c <=? 122))%N.

(** [\s]: the white space and line terminator code points. *)
Definition is_space (c : code_unit) : bool :=
  ((9 <=? c) && (c <=? 13) || (c =? 32) || (c =? 160) || (c =? 0x1680)
   || (0x2000 <=? c) && (c <=? 0x200a) || (c =? 0x2028) || (c =? 0x2029)
   || (c =? 0x202f) || (c =? 0x205f) || (c =? 0x3000) || (c =? 0xfeff))%N.

Definition dquote : code_unit := 34%N.
Definition space : code_unit := 32%N.

(** A code unit the negated class does not match, hence kept. *)
Definition kept (c : code_unit) : bool :=
  is_word c || is_space c || N.eqb c dquote.

(** [s.replace(pattern, space)] with the [g] flag: every match is
    replaced. *)
Definition sanitize (s : jsstring) : jsstring :=
  map (fun c => if kept c then c else space) s.

(** ** Constants of the search handler *)

(** The default of [q]: the word error in double quotes, then
    [ | timeout]. *)
Definition default_q : jsstring :=
  [dquote] ++ lit "error" ++ [dquote] ++ lit " | timeout".

Definition default_time : value :=
  VObj ["gte" =: VStr "now-24h"; "lte" =: VStr "now"].

Definition lexical_fields : list value :=
  [VStr "message^4"; VStr "service"; VStr "path"; VStr "error.code"; VStr "host"].

Definition fuzzy_fields : list value :=
  [VStr "message^3"; VStr "path"; VStr "service"; VStr "host"].

Definition rescore_stage (size : number) : value :=
  VObj [
    "window_size" =: VNum (Math_min (num_of_Z 1000) size);
    "query" =: VObj [
      "rescore_query" =: VObj [
        "match_phrase" =: VObj [
          "message" =: VObj [
            "query" =: VStr "connection reset";
            "slop" =: VInt 1;
            "boost" =: VInt 6 ] ] ];
      "query_weight" =: VInt 1;
      "rescore_query_weight" =: VInt 2 ] ].

Definition highlight_stage : value :=
  VObj ["fields" =: VObj ["message" =: VObj [
    "fragment_size" =: VInt 180; "number_of_fragments" =: VInt 1 ] ] ].

Definition facet_aggs : value :=
  VObj [
    "by_service" =: VObj ["terms" =: VObj [
      "field" =: VStr "service"; "size" =: VInt 25]];
    "by_level" =: VObj ["terms" =: VObj [
      "field" =: VStr "level"; "size" =: VInt 8]];
    "by_error_code" =: VObj ["terms" =: VObj [
      "field" =: VStr "error.code"; "size" =: VInt 20]] ].

Definition timeline_agg : value :=
  VObj ["date_histogram" =: VObj [
    "field" =: VStr "@timestamp"; "fixed_interval" =: VStr "5m" ] ].

(** The [catch] block of both handlers, which differ by the last
    fallback text only. *)
Definition error_response (fallback : string) (err : value) : response :=
  let status :=
    or_else (or_else (opt err "statusCode") (opt (opt err "meta") "statusCode"))
            (VInt 500) in
  res_status_json status
    (VObj [
       "ok" =: VFalse;
       "error" =: or_else (or_else (opt (opt (opt err "meta") "body") "error")
                                   (opt err "message"))
                          (VStr fallback) ]).

(** A handler: its [try] block run from an empty list of calls, the
    [catch] block applied to what it throws.  ([console.error] writes to
    the process log and is left out.) *)
Definition handle (try_block : Js response) (fallback : string)
  : list call * response :=
  match try_block [] with
  | (Normal r, calls) => (calls, r)
  | (Throw err, calls) => (calls, error_response fallback err)
  end.

(** The fields the search handler destructures from the request body,
    with their defaults (source lines 50 to 62).  A default applies to an
    absent or [undefined] field only. *)
Record request : Type := {
  q : value;
  services : value;
  levels : value;
  time : value;
  size : value;
  pit : value;
  cursor : value;
  highlight : value;
  includeTimeline : value;
  includeFacets : value
}.

(** [const { ... } = req.body || {}] *)
Definition destructure (req_body : value) : request :=
  let b := or_else req_body (VObj []) in
  {| q := field_or b "q" (VStr default_q);
     services := field_or b "services" (VArr []);
     levels := field_or b "levels" (VArr []);
     time := field_or b "time" default_time;
     size := field_or b "size" (VInt 100);
     pit := prop b "pit";
     cursor := prop b "cursor";
     highlight := field_or b "highlight" VTrue;
     includeTimeline := field_or b "includeTimeline" VTrue;
     includeFacets := field_or b "includeFacets" VTrue |}.

Section Handlers.

(** The two conversions between strings and numbers are those of the
    language; the handlers are embedded over any such pair. *)
Variable StringToNumber : jsstring -> number.
Variable NumberToString : number -> jsstring.

(** The module-level client. *)
Variable es : Client.

(** Conversion of a JSON object to a primitive.  Its own [toString]
    or [valueOf], when it has one, is a JSON value and so not callable;
    the inherited [valueOf] returns the object itself; the inherited
    [toString] returns the tag below. *)
Definition object_to_primitive (props : list (jsstring * value))
  : completion jsstring :=
  if has_own "toString" props
  then Throw (TypeError "Cannot convert object to primitive value")
  else Normal (lit "[object Object]").

(** [String(v)]; an array is joined with commas, [null] and
    [undefined] elements giving the empty string. *)
Fixpoint ToString (v : value) : completion jsstring :=
  match v with
  | VUndef => Normal (lit "undefined")
  | VNull => Normal (lit "null")
  | VBool b => Normal (lit (if b then "true" else "false"))
  | VNum n => Normal (NumberToString n)
  | VStr s => Normal s
  | VArr elems =>
      (fix join (l : list value) : completion jsstring :=
         match l with
         | [] => Normal []
         | x :: rest =>
             cbind (if nullish x then Normal [] else ToString x) (fun s =>
             match rest with
             | [] => Normal s
             | _ => cbind (join rest) (fun r => Normal (s ++ lit "," ++ r))
             end)
         end) elems
  | VObj props => object_to_primitive props
  end.

(** [Number(v)] *)
Definition ToNumber (v : value) : completion number :=
  match v with
  | VUndef => Normal NaN
  | VNull => Normal (num_of_Z 0)
  | VBool b => Normal (num_of_Z (if b then 1 else 0))
  | VNum n => Normal n
  | VStr s => Normal (StringToNumber s)
  | VArr _ | VObj _ => cbind (ToString v) (fun s => Normal (StringToNumber s))
  end.

(** [const must = [...]] *)
Definition build_must (q : value) : completion value :=
  cbind (ToString q) (fun s =>
  Normal (VArr [
    VObj ["simple_query_string" =: VObj [
      "query" =: q;
      "fields" =: VArr lexical_fields;
      "default_operator" =: VStr "and" ]];
    VObj ["multi_match" =: VObj [
      "query" =: VStr (sanitize s);
      "fields" =: VArr fuzzy_fields;
      "fuzziness" =: VStr "AUTO";
      "prefix_length" =: VInt 2 ]] ])).

(** [...(asArray(v).length ? [{ terms: { field: asArray(v) } }] : [])] *)
Definition terms_clause (field : string) (v : value) : list value :=
  if truthy (length_of (asArray v))
  then [VObj ["terms" =: VObj [field =: asArray v]]]
  else [].

(** [const filter = [...]] *)
Definition build_filter (time levels services : value) : completion value :=
  cbind (member time "gte") (fun gte =>
  cbind (member time "lte") (fun lte =>
  Normal (VArr (
    [VObj ["range" =: VObj ["@timestamp" =: VObj [
       "gte" =: or_else gte (VStr "now-24h");
       "lte" =: or_else lte (VStr "now") ]]]]
    ++ terms_clause "level" levels
    ++ terms_clause "service" services)))).

(** [Math.min(Number(size) || 50, 1000)] *)
Definition body_size (size : value) : completion number :=
  cbind (ToNumber size) (fun n =>
  Normal (Math_min (if num_truthy n then n else num_of_Z 50) (num_of_Z 1000))).

(** The body, from the object literal down to the timeline
    aggregation (source lines 64 to 151). *)
Definition compose_body
  (q time levels services size highlight includeTimeline includeFacets : value)
  : completion value :=
  cbind (build_must q) (fun must =>
  cbind (build_filter time levels services) (fun filter =>
  cbind (body_size size) (fun n =>
  let body :=
    VObj [
      "size" =: VNum n;
      "track_total_hits" =: VTrue;
      "query" =: VObj ["function_score" =: VObj [
        "query" =: VObj ["bool" =: VObj ["must" =: must; "filter" =: filter]];
        "functions" =: VArr [
          VObj ["exp" =: VObj ["@timestamp" =: VObj [
            "origin" =: VStr "now"; "scale" =: VStr "2h";
            "decay" =: VNum (Fin (6 # 10)) ]]] ];
        "score_mode" =: VStr "multiply";
        "boost_mode" =: VStr "multiply" ]];
      "sort" =: VArr [VObj ["@timestamp" =: VStr "desc"];
                      VObj ["_shard_doc" =: VStr "desc"]];
      "_source" =: VObj ["includes" =: VArr [
        VStr "@timestamp"; VStr "level"; VStr "service"; VStr "error.code";
        VStr "host"; VStr "path"; VStr "message" ]] ] in
  let body := set_prop body "rescore" (rescore_stage n) in
  let body :=
    if truthy highlight then set_prop body "highlight" highlight_stage
    else body in
  let body :=
    if truthy includeFacets then set_prop body "aggs" facet_aggs else body in
  let body :=
    if truthy includeTimeline
    then set_prop body "aggs"
           (spread_with (or_else (prop body "aggs") (VObj [])) "timeline" timeline_agg)
    else body in
  Normal body))).

(** The body composed for a destructured request. *)
Definition compose (r : request) : completion value :=
  compose_body (q r) (time r) (levels r) (services r) (size r)
    (highlight r) (includeTimeline r) (includeFacets r).

(** The mapping of one engine hit. *)
Definition project_hit (h : value) : completion value :=
  cbind (member h "_id") (fun id =>
  let src := prop h "_source" in
  Normal (VObj [
    "id" =: id;
    "sort" =: prop h "sort";
    "ts" =: opt src "@timestamp";
    "level" =: opt src "level";
    "service" =: opt src "service";
    "code" =: opt (opt src "error") "code";
    "host" =: opt src "host";
    "path" =: opt src "path";
    "message" =: opt src "message";
    "snippet" =: opt_index0 (opt (prop h "highlight") "message");
    "score" =: prop h "_score" ])).

(** [(resp.body?.hits?.hits || resp.hits?.hits || []).map(...)] *)
Definition project_hits (resp : value) : completion (list value) :=
  cbind (member resp "body") (fun rbody =>
  let found :=
    or_else (or_else (opt (opt rbody "hits") "hits")
                     (opt (prop resp "hits") "hits"))
            (VArr []) in
  match found with
  | VArr hs => map_c project_hit hs
  | _ =>
      Throw (TypeError
        "(intermediate value)(intermediate value)(intermediate value).map is not a function")
  end).

(** [hits.length ? hits[hits.length - 1].sort : null] *)
Definition next_cursor (hits : list value) : value :=
  if truthy (length_of (VArr hits))
  then prop (nth (List.length hits - 1) hits VUndef) "sort"
  else VNull.

(** The object handed to [res.json] on success (source lines 184 to
    199), [hits] being the mapped hits. *)
Definition success_payload (resp pitId keepAlive : value) (hits : list value)
  : value :=
  let rbody := prop resp "body" in
  let nextPitId := or_else (opt rbody "pit_id") pitId in
  let aggregations := opt rbody "aggregations" in
  VObj [
    "ok" =: VTrue;
    "total" =: or_else (opt (opt rbody "hits") "total")
                       (opt (prop resp "hits") "total");
    "pit" =: VObj ["id" =: nextPitId; "keep_alive" =: keepAlive];
    "hits" =: VArr hits;
    "facets" =:
      (if truthy aggregations
       then VObj [
         "services" =:
           or_else (opt (prop aggregations "by_service") "buckets") (VArr []);
         "levels" =:
           or_else (opt (prop aggregations "by_level") "buckets") (VArr []);
         "errorCodes" =:
           or_else (opt (prop aggregations "by_error_code") "buckets") (VArr []) ]
       else VUndef);
    "timeline" =: or_else (opt (opt aggregations "timeline") "buckets") VUndef;
    "nextCursor" =: next_cursor hits ].

(** From the engine answer to the response body (source lines 166 to
    199). *)
Definition project_response (resp pitId keepAlive : value) : completion value :=
  cbind (project_hits resp) (fun hits =>
  Normal (success_payload resp pitId keepAlive hits)).

(** The point-in-time handle of the call (source lines 155 to 160):
    the supplied one, or a newly opened one. *)
Definition resolve_pit (pit keepAlive : value) : Js value :=
  let pitId := opt pit "id" in
  if negb (truthy pitId) then
    (index <- lift (identifier "INDEX" INDEX) ;;
     pitRes <- await OpenPointInTime (openPointInTime es)
                 (VObj ["index" =: index; "keep_alive" =: keepAlive]) ;;
     ret (or_else (opt (opt pitRes "body") "id") (opt pitRes "id")))%js
  else ret pitId.

(** [body.pit = ...; if (Array.isArray(cursor) && cursor.length)
    body.search_after = cursor] (source lines 161 and 162). *)
Definition attach_pagination (body pitId keepAlive cursor : value) : value :=
  let body :=
    set_prop body "pit" (VObj ["id" =: pitId; "keep_alive" =: keepAlive]) in
  if isArray cursor && truthy (length_of cursor)
  then set_prop body "search_after" cursor
  else body.

(** [pit?.keep_alive || ...] with the default of one minute. *)
Definition keep_alive_of (pit : value) : value :=
  or_else (opt pit "keep_alive") (VStr "1m").

(** The [try] block of the [/search] route. *)
Definition search_try (req_body : value) : Js response :=
  let r := destructure req_body in
  (body <- lift (compose r) ;;
   let keepAlive := keep_alive_of (pit r) in
   pitId <- resolve_pit (pit r) keepAlive ;;
   let body := attach_pagination body pitId keepAlive (cursor r) in
   resp <- await Search (search es) (VObj ["body" =: body]) ;;
   out <- lift (project_response resp pitId keepAlive) ;;
   ret (res_json out))%js.

(** The [/search] route on a request whose body is [req_body]
    ([undefined] when the request has none). *)
Definition search_handler (req_body : value) : list call * response :=
  handle (search_try req_body) "Search error".

(** The [try] block of the [/close-pit] route. *)
Definition close_pit_try (req_body : value) : Js response :=
  let id := opt req_body "id" in
  if negb (truthy id)
  then ret (res_status_json (VInt 400)
              (VObj ["ok" =: VFalse; "error" =: VStr "Missing PIT id"]))
  else
    (_ <- await ClosePointInTime (closePointInTime es)
            (VObj ["body" =: VObj ["id" =: id]]) ;;
     ret (res_json (VObj ["ok" =: VTrue])))%js.

Definition close_pit_handler (req_body : value) : list call * response :=
  handle (close_pit_try req_body) "Close PIT error".

End Handlers.

(* ================================================================== *)
(** * Instances for closed examples *)
(* ================================================================== *)

(** A closed example needs one instance of the two conversions.  The
    examples below convert no number to a string, and the only strings
    they convert to a number are words that are no numeric literal, on
    which [Number] answers [NaN]. *)
Definition S2N_words : jsstring -> number := fun _ => NaN.
Definition N2S_unused : number -> jsstring := fun _ => [].

(** An engine hit as the engine returns it. *)
Definition engine_hit (id : string) (sort : list value) (message : string) : value :=
  VObj ["_id" =: VStr id;
        "_score" =: VInt 1;
        "sort" =: VArr sort;
        "_source" =: VObj ["message" =: VStr message]].

(** An engine answer in the envelope [{ body: { hits: { hits } } }],
    with the aggregations [aggs] when given. *)
Definition engine_answer (hits : list value) (aggs : option value) : value :=
  VObj ["body" =: VObj (
    ["hits" =: VObj ["total" =: VInt (Z.of_nat (List.length hits));
                     "hits" =: VArr hits]]
    ++ match aggs with
       | Some a => ["aggregations" =: a]
       | None => []
       end)].

(** The point-in-time id a search body carries. *)
Definition pit_id_of (params : value) : value :=
  prop (prop (prop params "body") "pit") "id".

(** An engine holding two points in time, [pit-A] and [pit-B], each
    with one page of one hit. *)
Definition es_two_pits : Client :=
  {| openPointInTime := fun _ => Normal (VObj ["id" =: VStr "pit-new"]);
     search := fun params =>
       match pit_id_of params with
       | VStr s =>
           if str_eqb s "pit-A"
           then Normal (engine_answer
                  [engine_hit "doc#42" [VInt 1700000000000; VStr "doc#42"] "timeout"]
                  None)
           else Normal (engine_answer
                  [engine_hit "doc#7" [VInt 1600000000000; VStr "doc#7"] "reset"]
                  None)
       | _ => Throw (js_error "missing pit")
       end;
     closePointInTime := fun _ => Normal (VObj ["succeeded" =: VTrue]) |}.

(** An engine that cannot be reached: every call rejects with the
    client's connection error, which carries no status and no body. *)
Definition connection_error : value :=
  VObj ["name" =: VStr "ConnectionError";
        "message" =: VStr "connect ECONNREFUSED 127.0.0.1:9000";
        "meta" =: VObj ["body" =: VNull; "statusCode" =: VNull]].

Definition es_unreachable : Client :=
  {| openPointInTime := fun _ => Throw connection_error;
     search := fun _ => Throw connection_error;
     closePointInTime := fun _ => Throw connection_error |}.

(** An engine that answers a search with the timeline aggregation only,
    as it does when the body asks for no other. *)
Definition es_timeline_only : Client :=
  {| openPointInTime := fun _ => Normal (VObj ["id" =: VStr "pit-new"]);
     search := fun _ =>
       Normal (engine_answer []
         (Some (VObj ["timeline" =: VObj ["buckets" =: VArr [
            VObj ["key" =: VInt 1700000000000; "doc_count" =: VInt 3]]]])));
     closePointInTime := fun _ => Normal (VObj ["succeeded" =: VTrue]) |}.

(** A request body with the field [k] set to [v]. *)
Definition with_field (props : list (jsstring * value)) (k : string) (v : value)
  : value :=
  VObj (assign props k v).

(** A request for a page under the point in time [pit_id]. *)
Definition page_of (pit_id : string) : value :=
  VObj ["q" =: VStr "timeout"; "pit" =: VObj ["id" =: VStr pit_id]].

(** The cursor of the example of the specification. *)
Definition example_cursor : value := VArr [VInt 1700000000000; VStr "doc#42"].

(** A request for the page after [cursor] under [pit_id]. *)
Definition next_page_of (pit_id : string) (cursor : value) : value :=
  VObj ["q" =: VStr "timeout";
        "pit" =: VObj ["id" =: VStr pit_id];
        "cursor" =: cursor].

(** An engine with nothing to return. *)
Definition es_empty : Client :=
  {| openPointInTime := fun _ => Normal (VObj ["id" =: VStr "pit-new"]);
     search := fun _ => Normal (engine_answer [] None);
     closePointInTime := fun _ => Normal (VObj ["succeeded" =: VTrue]) |}.

(** A request that turns the facets off and leaves the timeline on. *)
Definition no_facets_request : value :=
  VObj ["pit" =: VObj ["id" =: VStr "pit-A"]; "includeFacets" =: VFalse].

(** The other envelope the handler itself provides for: an answer
    whose [hits] are at the top level has its hits read, but its
    aggregations are looked for under [body] only and do not reach the
    response. *)
Definition es_flat_envelope : Client :=
  {| openPointInTime := fun _ => Normal (VObj ["id" =: VStr "pit-new"]);
     search := fun _ =>
       Normal (VObj [
         "hits" =: VObj ["total" =: VInt 1; "hits" =: VArr [
           engine_hit "doc#42" [VInt 1700000000000; VStr "doc#42"] "timeout"]];
         "aggregations" =: VObj [
           "by_service" =: VObj ["buckets" =: VArr [
             VObj ["key" =: VStr "auth-api"; "doc_count" =: VInt 1]]];
           "timeline" =: VObj ["buckets" =: VArr [
             VObj ["key" =: VInt 1700000000000; "doc_count" =: VInt 1]]]]]);
     closePointInTime := fun _ => Normal (VObj ["succeeded" =: VTrue]) |}.

(* ================================================================== *)
(** * Vocabulary of the properties *)
(* ================================================================== *)

(** The aggregations the body asks for, by the two toggles. *)
Definition aggs_requested (includeFacets includeTimeline : value) : option value :=
  match truthy includeFacets, truthy includeTimeline with
  | true, true =>
      Some (VObj [
        "by_service" =: VObj ["terms" =: VObj [
          "field" =: VStr "service"; "size" =: VInt 25]];
        "by_level" =: VObj ["terms" =: VObj [
          "field" =: VStr "level"; "size" =: VInt 8]];
        "by_error_code" =: VObj ["terms" =: VObj [
          "field" =: VStr "error.code"; "size" =: VInt 20]];
        "timeline" =: timeline_agg ])
  | true, false => Some facet_aggs
  | false, true => Some (VObj ["timeline" =: timeline_agg])
  | false, false => None
  end.

(** A section is present in the response sent when its property is not
    [undefined] (serialisation drops the others). *)
Definition present (out : value) (k : string) : Prop := prop out k <> VUndef.










(** ** The client and what surrounds a page *)

(** The options of [new Client(...)] (source lines 18 to 25), [env]
    being [process.env]: a variable that is not set reads [undefined]. *)
Definition client_options (env : string -> value) : value :=
  VObj [
    "node" =: or_else (env "ELASTIC_URL") (VStr "http://localhost:9000");
    "auth" =:
      (if truthy (env "ELASTIC_USER") && truthy (env "ELASTIC_PASS")
       then VObj ["username" =: env "ELASTIC_USER";
                  "password" =: env "ELASTIC_PASS"]
       else VUndef);
    "tls" =: VObj ["rejectUnauthorized" =: VFalse] ].

(** The list the hits are mapped from:
    [resp.body?.hits?.hits || resp.hits?.hits || []], for an answer that
    is neither [null] nor [undefined]. *)
Definition engine_hits (resp : value) : value :=
  or_else (or_else (opt (opt (prop resp "body") "hits") "hits")
                   (opt (prop resp "hits") "hits"))
          (VArr []).

(** The property names of a mapped hit, in order. *)
Definition hit_keys : list jsstring :=
  [lit "id"; lit "sort"; lit "ts"; lit "level"; lit "service"; lit "code";
   lit "host"; lit "path"; lit "message"; lit "snippet"; lit "score"].

(** The request for the next page, as a client builds it from a
    response: the [pit] and the [nextCursor] it was given, sent back as
    they are. *)
Definition follow_up (out : value) : value :=
  VObj ["pit" =: prop out "pit"; "cursor" =: prop out "nextCursor"].

(** The properties the mapping reads on an engine hit, and on its
    [_source] (source lines 167 to 177). *)
Definition hit_reads : list jsstring :=
  [lit "_id"; lit "sort"; lit "_source"; lit "highlight"; lit "_score"].

Definition source_reads : list jsstring :=
  [lit "@timestamp"; lit "level"; lit "service"; lit "error"; lit "host";
   lit "path"; lit "message"].

Definition not_among (k : jsstring) (keys : list jsstring) : bool :=
  forallb (fun w => negb (str_eqb w k)) keys.

(** An environment with the listed variables set. *)
Definition env_of (vars : list (string * string)) (name : string) : value :=
  match find (fun kv => String.eqb (fst kv) name) vars with
  | Some kv => VStr (snd kv)
  | None => VUndef
  end.

(** An engine that rotates the point-in-time id on every search. *)
Definition es_rotating : Client :=
  {| openPointInTime := fun _ => Normal (VObj ["id" =: VStr "pit-new"]);
     search := fun _ =>
       Normal (VObj ["body" =: VObj [
         "pit_id" =: VStr "pit-A2";
         "hits" =: VObj ["total" =: VInt 2; "hits" =: VArr [
           engine_hit "doc#43" [VInt 1700000000500; VStr "doc#43"] "reset";
           VObj ["_id" =: VStr "doc#42";
                 "_score" =: VInt 1;
                 "sort" =: VArr [VInt 1700000000000; VStr "doc#42"];
                 "_source" =: VObj ["message" =: VStr "timeout";
                                    "user" =: VStr "alice"];
                 "highlight" =: VObj ["message" =: VArr [VStr "<em>timeout</em>"]]]]];
         "aggregations" =: VObj [
           "by_level" =: VObj ["buckets" =: VArr [
             VObj ["key" =: VStr "error"; "doc_count" =: VInt 2]]]]]]);
     closePointInTime := fun _ => Normal (VObj ["succeeded" =: VTrue]) |}.

(** An engine whose answer lists a [null] among the hits. *)
Definition es_null_hit : Client :=
  {| openPointInTime := fun _ => Normal (VObj ["id" =: VStr "pit-new"]);
     search := fun _ => Normal (engine_answer [VNull] None);
     closePointInTime := fun _ => Normal (VObj ["succeeded" =: VTrue]) |}.

(* ================================================================== *)
(** * Basic facts about values *)
(* ================================================================== *)

Lemma str_eqb_refl (a : jsstring) : str_eqb a a = true.
Proof.
  induction a as [|x a IH]; simpl; [reflexivity|].
  now rewrite N.eqb_refl, IH.
Qed.

Lemma str_eqb_eq (a b : jsstring) : str_eqb a b = true <-> a = b.
Proof.
  split.
  - revert b; induction a as [|x a IH]; intros [|y b]; simpl;
      try discriminate; [reflexivity|].
    intros H. apply andb_true_iff in H as [Hx Hab].
    apply N.eqb_eq in Hx. subst. f_equal. now apply IH.
  - intros ->. apply str_eqb_refl.
Qed.

Lemma lookup_assign_same props k v : lookup k (assign props k v) = Some v.
Proof.
  induction props as [|[k' v'] rest IH]; simpl.
  - now rewrite str_eqb_refl.
  - destruct (str_eqb k k') eqn:E; simpl; rewrite E; [reflexivity|exact IH].
Qed.

Lemma lookup_assign_other props k k' v :
  str_eqb k' k = false -> lookup k' (assign props k v) = lookup k' props.
Proof.
  intros Hne.
  induction props as [|[k0 v0] rest IH]; simpl.
  - now rewrite Hne.
  - destruct (str_eqb k k0) eqn:E; simpl.
    + apply str_eqb_eq in E; subst k0. now rewrite Hne.
    + now rewrite IH.
Qed.

Lemma prop_set_same props k v : prop (set_prop (VObj props) k v) k = v.
Proof. simpl. now rewrite lookup_assign_same. Qed.

Lemma prop_set_other props k k' v :
  str_eqb k' k = false ->
  prop (set_prop (VObj props) k v) k' = prop (VObj props) k'.
Proof. intros H. simpl. now rewrite lookup_assign_other. Qed.

Lemma truthy_length_of (l : list value) :
  truthy (length_of (VArr l)) = match l with [] => false | _ => true end.
Proof. destruct l; reflexivity. Qed.

Lemma nth_pred_length_last {A} (l : list A) (d : A) :
  nth (List.length l - 1) l d = last l d.
Proof.
  induction l as [|x [|y l'] IH]; try reflexivity.
  simpl in IH |- *. rewrite Nat.sub_0_r in IH. exact IH.
Qed.

(* ================================================================== *)
(** * Normalisation of [levels] and [services] *)
(* ================================================================== *)

Lemma asArray_array (l : list value) : asArray (VArr l) = VArr l.
Proof. reflexivity. Qed.

Lemma asArray_idempotent (v : value) : asArray (asArray v) = asArray v.
Proof. destruct v; reflexivity. Qed.

Lemma asArray_single (v : value) :
  nullish v = false -> isArray v = false -> asArray v = asArray (VArr [v]).
Proof. destruct v; simpl; intros; try discriminate; reflexivity. Qed.

Lemma terms_clause_single (field : string) (v : value) :
  nullish v = false -> isArray v = false ->
  terms_clause field v = terms_clause field (VArr [v]).
Proof.
  intros Hn Ha. unfold terms_clause. now rewrite (asArray_single v Hn Ha).
Qed.

Lemma build_filter_single (time v other : value) :
  nullish v = false -> isArray v = false ->
  build_filter time v other = build_filter time (VArr [v]) other
  /\ build_filter time other v = build_filter time other (VArr [v]).
Proof.
  intros Hn Ha. unfold build_filter.
  now rewrite !(terms_clause_single _ v Hn Ha).
Qed.

Lemma field_or_with_other props k k' v d :
  str_eqb (lit k') (lit k) = false ->
  field_or (with_field props k v) k' d = field_or (VObj props) k' d.
Proof.
  intros H. unfold field_or, with_field.
  change (VObj (assign props k v)) with (set_prop (VObj props) k v).
  now rewrite prop_set_other.
Qed.

Lemma prop_with_other props k k' v :
  str_eqb (lit k') (lit k) = false ->
  prop (with_field props k v) k' = prop (VObj props) k'.
Proof.
  intros H. unfold with_field.
  change (VObj (assign props k v)) with (set_prop (VObj props) k v).
  now rewrite prop_set_other.
Qed.

Lemma field_or_with_same props k v d :
  v <> VUndef -> field_or (with_field props k v) k d = v.
Proof.
  intros H. unfold field_or, with_field.
  change (VObj (assign props k v)) with (set_prop (VObj props) k v).
  rewrite prop_set_same. destruct v; congruence.
Qed.

(** Setting [levels] or [services] changes that field of the
    destructured request and no other. *)
Lemma destructure_with_levels props v :
  v <> VUndef ->
  destructure (with_field props "levels" v)
  = let r := destructure (VObj props) in
    {| q := q r; services := services r; levels := v; time := time r;
       size := size r; pit := pit r; cursor := cursor r;
       highlight := highlight r; includeTimeline := includeTimeline r;
       includeFacets := includeFacets r |}.
Proof.
  intros Hv. unfold destructure.
  replace (or_else (with_field props "levels" v) (VObj []))
    with (with_field props "levels" v) by reflexivity.
  replace (or_else (VObj props) (VObj [])) with (VObj props) by reflexivity.
  cbv zeta.
  rewrite field_or_with_same by assumption.
  rewrite !field_or_with_other, !prop_with_other by reflexivity.
  reflexivity.
Qed.

Lemma destructure_with_services props v :
  v <> VUndef ->
  destructure (with_field props "services" v)
  = let r := destructure (VObj props) in
    {| q := q r; services := v; levels := levels r; time := time r;
       size := size r; pit := pit r; cursor := cursor r;
       highlight := highlight r; includeTimeline := includeTimeline r;
       includeFacets := includeFacets r |}.
Proof.
  intros Hv. unfold destructure.
  replace (or_else (with_field props "services" v) (VObj []))
    with (with_field props "services" v) by reflexivity.
  replace (or_else (VObj props) (VObj [])) with (VObj props) by reflexivity.
  cbv zeta.
  rewrite field_or_with_same by assumption.
  rewrite !field_or_with_other, !prop_with_other by reflexivity.
  reflexivity.
Qed.

Section Normalisation.

Variable StringToNumber : jsstring -> number.
Variable NumberToString : number -> jsstring.
Variable es : Client.


Lemma search_handler_levels props v w :
  v <> VUndef -> w <> VUndef ->
  (forall time other,
      build_filter time v other = build_filter time w other) ->
  search_handler StringToNumber NumberToString es (with_field props "levels" v)
  = search_handler StringToNumber NumberToString es
      (with_field props "levels" w).
Proof.
  intros Hv Hw Hf.
  unfold search_handler, search_try.
  rewrite !destructure_with_levels by assumption.
  cbv zeta.
  cbn [q services levels time size pit cursor highlight includeTimeline
       includeFacets].
  unfold compose, compose_body.
  cbn [q services levels time size pit cursor highlight includeTimeline
       includeFacets].
  now rewrite Hf.
Qed.

Lemma search_handler_services props v w :
  v <> VUndef -> w <> VUndef ->
  (forall time other,
      build_filter time other v = build_filter time other w) ->
  search_handler StringToNumber NumberToString es
    (with_field props "services" v)
  = search_handler StringToNumber NumberToString es
      (with_field props "services" w).
Proof.
  intros Hv Hw Hf.
  unfold search_handler, search_try.
  rewrite !destructure_with_services by assumption.
  cbv zeta.
  cbn [q services levels time size pit cursor highlight includeTimeline
       includeFacets].
  unfold compose, compose_body.
  cbn [q services levels time size pit cursor highlight includeTimeline
       includeFacets].
  now rewrite Hf.
Qed.

(** C9 (as amended).  For every value [v] that is neither absent ([null],
    [undefined]) nor an array, a request that supplies [levels] (or
    [services]) as [v] gets the same filter clauses as one that supplies
    the one-element list of [v], and the handler then makes the same
    engine calls and gives the same response; normalising twice is
    normalising once, and an array is its own normal form. *)
Theorem scalar_is_singleton_list (v : value) :
  nullish v = false -> isArray v = false ->
  (forall time other,
      build_filter time v other = build_filter time (VArr [v]) other
      /\ build_filter time other v = build_filter time other (VArr [v]))
  /\ (forall props,
        search_handler StringToNumber NumberToString es
            (with_field props "levels" v)
        = search_handler StringToNumber NumberToString es
            (with_field props "levels" (VArr [v]))
        /\ search_handler StringToNumber NumberToString es
            (with_field props "services" v)
           = search_handler StringToNumber NumberToString es
               (with_field props "services" (VArr [v])))
  /\ (forall w, asArray (asArray w) = asArray w)
  /\ (forall l, asArray (VArr l) = VArr l).
Proof.
  intros Hn Ha.
  assert (Hv : v <> VUndef) by (intros ->; discriminate).
  repeat split.
  - apply (build_filter_single _ v _ Hn Ha).
  - apply (build_filter_single _ v _ Hn Ha).
  - apply search_handler_levels; [assumption|discriminate|].
    intros; apply (build_filter_single _ v _ Hn Ha).
  - apply search_handler_services; [assumption|discriminate|].
    intros; apply (build_filter_single _ v _ Hn Ha).
  - apply asArray_idempotent.
Qed.

End Normalisation.

(** The example of the specification: [levels] given as the string
    [error] is filtered as the one-element list. *)
Example levels_error_clause :
  terms_clause "level" (VStr "error")
  = [VObj ["terms" =: VObj ["level" =: VArr [VStr "error"]]]].
Proof. reflexivity. Qed.

Lemma scalar_is_singleton_list_witness :
  nullish (VStr "error") = false
  /\ isArray (VStr "error") = false
  /\ search_handler S2N_words N2S_unused es_two_pits
       (with_field ["pit" =: VObj ["id" =: VStr "pit-A"]] "levels" (VStr "error"))
     = search_handler S2N_words N2S_unused es_two_pits
         (with_field ["pit" =: VObj ["id" =: VStr "pit-A"]] "levels"
            (VArr [VStr "error"])).
Proof.
  split; [reflexivity|split; [reflexivity|]].
  destruct (scalar_is_singleton_list S2N_words N2S_unused es_two_pits
              (VStr "error") eq_refl eq_refl) as (_ & H & _).
  apply H.
Defined.

(** C9 as stated fails at [null], a value a request can carry:
    [levels: null] is normalised to the empty list and gets no clause,
    the one-element list of [null] gets a terms clause, and the two
    requests make different search calls. *)
Lemma null_scalar_counterexample :
  terms_clause "level" VNull = []
  /\ terms_clause "level" (VArr [VNull])
     = [VObj ["terms" =: VObj ["level" =: VArr [VNull]]]]
  /\ fst (search_handler S2N_words N2S_unused es_two_pits
            (with_field ["pit" =: VObj ["id" =: VStr "pit-A"]] "levels" VNull))
     <> fst (search_handler S2N_words N2S_unused es_two_pits
               (with_field ["pit" =: VObj ["id" =: VStr "pit-A"]] "levels"
                  (VArr [VNull]))).
Proof.
  split; [reflexivity|]. split; [reflexivity|].
  vm_compute. discriminate.
Qed.

(* ================================================================== *)
(** * Failures and the close-pit route *)
(* ================================================================== *)

Lemma handle_normal (t : Js response) fallback r calls :
  t [] = (Normal r, calls) -> handle t fallback = (calls, r).
Proof. unfold handle. now intros ->. Qed.

Lemma handle_throw (t : Js response) fallback err calls :
  t [] = (Throw err, calls) ->
  handle t fallback = (calls, error_response fallback err).
Proof. unfold handle. now intros ->. Qed.

(** The status and the message the [catch] blocks choose. *)
Lemma error_response_cases (fallback : string) (err : value) :
  let s1 := opt err "statusCode" in
  let s2 := opt (opt err "meta") "statusCode" in
  let e1 := opt (opt (opt err "meta") "body") "error" in
  let e2 := opt err "message" in
  status (error_response fallback err)
  = (if truthy s1 then s1 else if truthy s2 then s2 else VInt 500)
  /\ payload (error_response fallback err)
     = VObj ["ok" =: VFalse;
             "error" =: (if truthy e1 then e1
                         else if truthy e2 then e2 else VStr fallback)].
Proof.
  cbv zeta. unfold error_response, res_status_json, or_else; simpl status;
    simpl payload.
  split.
  - destruct (truthy (opt err "statusCode")) eqn:E1; cbv iota; rewrite ?E1;
      [reflexivity|].
    destruct (truthy (opt (opt err "meta") "statusCode")) eqn:E2; cbv iota;
      rewrite ?E2; reflexivity.
  - destruct (truthy (opt (opt (opt err "meta") "body") "error")) eqn:E1;
      cbv iota; rewrite ?E1; [reflexivity|].
    destruct (truthy (opt err "message")) eqn:E2; cbv iota; rewrite ?E2;
      reflexivity.
Qed.

(** C8 (as amended).  Whatever a handler's [try] block throws, the
    response has the status [err.statusCode] when truthy, else
    [err.meta.statusCode] when truthy, else 500, and the body
    [{ok: false, error}] where [error] is the engine's structured error
    [err.meta.body.error] when truthy, else the thrown value's own
    [message] when truthy, else the handler's fallback text. *)
Theorem failure_response
  (S2N : jsstring -> number) (N2S : number -> jsstring) (es : Client)
  (req_body err : value) (calls : list call) :
  let s1 := opt err "statusCode" in
  let s2 := opt (opt err "meta") "statusCode" in
  let e1 := opt (opt (opt err "meta") "body") "error" in
  let e2 := opt err "message" in
  let code := if truthy s1 then s1 else if truthy s2 then s2 else VInt 500 in
  let message fallback :=
    if truthy e1 then e1 else if truthy e2 then e2 else VStr fallback in
  (search_try S2N N2S es req_body [] = (Throw err, calls) ->
   search_handler S2N N2S es req_body
   = (calls, {| status := code;
                payload := VObj ["ok" =: VFalse;
                                 "error" =: message "Search error"] |}))
  /\ (close_pit_try es req_body [] = (Throw err, calls) ->
      close_pit_handler es req_body
      = (calls, {| status := code;
                   payload := VObj ["ok" =: VFalse;
                                    "error" =: message "Close PIT error"] |})).
Proof.
  cbv zeta. split; intros H.
  - unfold search_handler. rewrite (handle_throw _ _ H). f_equal.
    destruct (error_response_cases "Search error" err) as [Hs Hp].
    cbv zeta in Hs, Hp. rewrite <- Hs, <- Hp. reflexivity.
  - unfold close_pit_handler. rewrite (handle_throw _ _ H). f_equal.
    destruct (error_response_cases "Close PIT error" err) as [Hs Hp].
    cbv zeta in Hs, Hp. rewrite <- Hs, <- Hp. reflexivity.
Qed.

Lemma failure_response_witness :
  snd (search_handler S2N_words N2S_unused es_unreachable (page_of "pit-A"))
  = {| status := VInt 500;
       payload := VObj ["ok" =: VFalse;
                        "error" =: VStr "connect ECONNREFUSED 127.0.0.1:9000"] |}
  /\ snd (close_pit_handler es_unreachable (VObj ["id" =: VStr "pit-A"]))
     = {| status := VInt 500;
          payload := VObj ["ok" =: VFalse;
                           "error" =: VStr "connect ECONNREFUSED 127.0.0.1:9000"] |}.
Proof.
  split.
  - destruct (failure_response S2N_words N2S_unused es_unreachable
                (page_of "pit-A") connection_error
                (snd (search_try S2N_words N2S_unused es_unreachable
                        (page_of "pit-A") []))) as [H _].
    rewrite H; reflexivity.
  - destruct (failure_response S2N_words N2S_unused es_unreachable
                (VObj ["id" =: VStr "pit-A"]) connection_error
                (snd (close_pit_try es_unreachable
                        (VObj ["id" =: VStr "pit-A"]) []))) as [_ H].
    rewrite H; reflexivity.
Defined.

(** C8 as stated fails: with no structured error in what was thrown,
    the body carries the thrown value's own message, not the generic
    fallback text. *)
Lemma error_fallback_counterexample :
  search es_unreachable (VObj []) = Throw connection_error
  /\ opt (opt (opt connection_error "meta") "body") "error" = VUndef
  /\ prop (payload (snd (search_handler S2N_words N2S_unused es_unreachable
                           (page_of "pit-A")))) "error"
     = VStr "connect ECONNREFUSED 127.0.0.1:9000"
  /\ prop (payload (snd (search_handler S2N_words N2S_unused es_unreachable
                           (page_of "pit-A")))) "error"
     <> VStr "Search error".
Proof.
  repeat split; try reflexivity.
  vm_compute. discriminate.
Qed.

(** C7.  A close-pit request whose body has no [id] (or a falsy one:
    the handler tests [!id]) is answered 400 with
    [{ok: false, error: Missing PIT id}] and no engine call is made; with
    an id, exactly one engine call is made, the close of that id, and
    when it resolves the answer is 200 with [{ok: true}]. *)
Theorem close_pit_contract (es : Client) (req_body : value) :
  (truthy (opt req_body "id") = false ->
   close_pit_handler es req_body
   = ([], {| status := VInt 400;
             payload := VObj ["ok" =: VFalse;
                              "error" =: VStr "Missing PIT id"] |}))
  /\ (truthy (opt req_body "id") = true ->
      let params := VObj ["body" =: VObj ["id" =: opt req_body "id"]] in
      fst (close_pit_handler es req_body) = [ClosePointInTime params]
      /\ forall answer,
          closePointInTime es params = Normal answer ->
          snd (close_pit_handler es req_body)
          = {| status := VInt 200; payload := VObj ["ok" =: VTrue] |}).
Proof.
  unfold close_pit_handler, close_pit_try, handle.
  split; intros H; rewrite H; cbn [negb].
  - reflexivity.
  - cbv zeta. unfold bind, await, ret. cbn [app].
    destruct (closePointInTime es _) as [a|e] eqn:E.
    + split; [reflexivity|]. intros; reflexivity.
    + split; [reflexivity|]. intros answer Ha. discriminate.
Qed.

Lemma close_pit_contract_witness :
  close_pit_handler es_two_pits (VObj [])
  = ([], {| status := VInt 400;
            payload := VObj ["ok" =: VFalse;
                             "error" =: VStr "Missing PIT id"] |})
  /\ close_pit_handler es_two_pits (VObj ["id" =: VStr "pit-A"])
     = ([ClosePointInTime (VObj ["body" =: VObj ["id" =: VStr "pit-A"]])],
        {| status := VInt 200; payload := VObj ["ok" =: VTrue] |}).
Proof.
  split.
  - destruct (close_pit_contract es_two_pits (VObj [])) as [H _].
    apply H. reflexivity.
  - destruct (close_pit_contract es_two_pits (VObj ["id" =: VStr "pit-A"]))
      as [_ H].
    destruct (H eq_refl) as [Hc Hr].
    specialize (Hr (VObj ["succeeded" =: VTrue]) eq_refl).
    destruct (close_pit_handler es_two_pits (VObj ["id" =: VStr "pit-A"]))
      as [calls r].
    simpl in Hc, Hr. now subst.
Defined.

(** An absent body, an absent [id] and a [null] [id] are all falsy. *)
Lemma absent_id_falsy (req_body : value) :
  opt req_body "id" = VUndef \/ opt req_body "id" = VNull ->
  truthy (opt req_body "id") = false.
Proof. now intros [-> | ->]. Qed.

(* ================================================================== *)
(** * The composed body *)
(* ================================================================== *)

Section Composition.

Variable StringToNumber : jsstring -> number.
Variable NumberToString : number -> jsstring.

(** What a composed body holds: a body is composed exactly when the
    two legs, the filter and the size are, and it is then an object with
    these properties. *)
Lemma compose_body_inv q time levels services size highlight includeTimeline
  includeFacets body :
  compose_body StringToNumber NumberToString q time levels services size
    highlight includeTimeline includeFacets = Normal body ->
  exists must filter n props,
    build_must NumberToString q = Normal must
    /\ build_filter time levels services = Normal filter
    /\ body_size StringToNumber NumberToString size = Normal n
    /\ body = VObj props
    /\ lookup "size" props = Some (VNum n)
    /\ lookup "rescore" props = Some (rescore_stage n)
    /\ lookup "aggs" props = aggs_requested includeFacets includeTimeline
    /\ lookup "pit" props = None
    /\ lookup "search_after" props = None
    /\ lookup "from" props = None.
Proof.
  unfold compose_body, aggs_requested.
  destruct (build_must NumberToString q) as [must|e]; [|discriminate].
  destruct (build_filter time levels services) as [filter|e]; [|discriminate].
  destruct (body_size StringToNumber NumberToString size) as [n|e];
    [|discriminate].
  cbn [cbind]. cbv zeta.
  destruct (truthy highlight), (truthy includeFacets), (truthy includeTimeline);
    intros H; injection H as <-;
    exists must, filter, n; eexists;
    (split; [reflexivity|]); (split; [reflexivity|]); (split; [reflexivity|]);
    (split; [reflexivity|]); repeat split; reflexivity.
Qed.

(** Conversely the composition goes through as soon as its three
    fallible steps do. *)
Lemma compose_body_defined q time levels services size highlight
  includeTimeline includeFacets must filter n :
  build_must NumberToString q = Normal must ->
  build_filter time levels services = Normal filter ->
  body_size StringToNumber NumberToString size = Normal n ->
  exists body,
    compose_body StringToNumber NumberToString q time levels services size
      highlight includeTimeline includeFacets = Normal body.
Proof.
  intros Hm Hf Hn. unfold compose_body. rewrite Hm, Hf, Hn. cbn [cbind].
  eexists; reflexivity.
Qed.

End Composition.

(** The three steps go through on a request whose [q] is a string,
    whose [size] is a number and whose [time] is neither [null] nor
    [undefined]. *)
Lemma build_must_string N2S (s : jsstring) :
  exists must, build_must N2S (VStr s) = Normal must.
Proof. eexists; reflexivity. Qed.

Lemma build_filter_defined time levels services :
  nullish time = false ->
  exists filter, build_filter time levels services = Normal filter.
Proof.
  intros H. unfold build_filter.
  destruct time; try discriminate; cbn [member cbind]; eexists; reflexivity.
Qed.

Lemma body_size_number S2N N2S (n : number) :
  body_size S2N N2S (VNum n)
  = Normal (Math_min (if num_truthy n then n else num_of_Z 50) (num_of_Z 1000)).
Proof. reflexivity. Qed.

Lemma compose_plain_request S2N N2S (r : request) (s : jsstring) (n : number) :
  q r = VStr s -> size r = VNum n -> nullish (time r) = false ->
  exists body, compose S2N N2S r = Normal body.
Proof.
  intros Hq Hs Ht. unfold compose. rewrite Hq, Hs.
  destruct (build_must_string N2S s) as [must Hm].
  destruct (build_filter_defined (time r) (levels r) (services r) Ht)
    as [filter Hf].
  exact (compose_body_defined S2N N2S _ _ _ _ _ _ _ _ Hm Hf
           (body_size_number S2N N2S n)).
Qed.

(** ** Pagination fields of the body sent *)

Lemma attach_pagination_pit props pitId keepAlive cursor :
  prop (attach_pagination (VObj props) pitId keepAlive cursor) "pit"
  = VObj ["id" =: pitId; "keep_alive" =: keepAlive].
Proof.
  unfold attach_pagination.
  destruct (isArray cursor && truthy (length_of cursor)).
  - change (set_prop (VObj props) "pit" ?v) with (VObj (assign props "pit" v)).
    rewrite prop_set_other by reflexivity.
    change (VObj (assign props "pit" ?v)) with (set_prop (VObj props) "pit" v).
    apply prop_set_same.
  - apply prop_set_same.
Qed.

Lemma attach_pagination_cursor props pitId keepAlive cursor :
  lookup "search_after" props = None ->
  prop (attach_pagination (VObj props) pitId keepAlive cursor) "search_after"
  = if isArray cursor && truthy (length_of cursor) then cursor else VUndef.
Proof.
  intros Hnone. unfold attach_pagination.
  destruct (isArray cursor && truthy (length_of cursor)).
  - change (set_prop (VObj props) "pit" ?v) with (VObj (assign props "pit" v)).
    apply prop_set_same.
  - rewrite prop_set_other by reflexivity. simpl. now rewrite Hnone.
Qed.

Lemma attach_pagination_other props pitId keepAlive cursor (k : string) :
  str_eqb k "pit" = false -> str_eqb k "search_after" = false ->
  prop (attach_pagination (VObj props) pitId keepAlive cursor) k
  = prop (VObj props) k.
Proof.
  intros H1 H2. unfold attach_pagination.
  destruct (isArray cursor && truthy (length_of cursor)).
  - change (set_prop (VObj props) "pit" ?v) with (VObj (assign props "pit" v)).
    rewrite prop_set_other by assumption.
    change (VObj (assign props "pit" ?v)) with (set_prop (VObj props) "pit" v).
    now rewrite prop_set_other.
  - now rewrite prop_set_other.
Qed.

(** A cursor is attached exactly when it is a non-empty array. *)
Lemma cursor_attached (cursor : value) :
  isArray cursor && truthy (length_of cursor) = true
  <-> exists x xs, cursor = VArr (x :: xs).
Proof.
  split.
  - destruct cursor as [| | | | |[|x xs]|]; simpl; try discriminate.
    intros _. now exists x, xs.
  - intros (x & xs & ->). reflexivity.
Qed.

(* ================================================================== *)
(** * The search route, step by step *)
(* ================================================================== *)

Section SearchFlow.

Variable StringToNumber : jsstring -> number.
Variable NumberToString : number -> jsstring.
Variable es : Client.

(** The three ways through the [try] block. *)
Lemma search_try_compose_throws req_body e :
  compose StringToNumber NumberToString (destructure req_body) = Throw e ->
  search_try StringToNumber NumberToString es req_body [] = (Throw e, []).
Proof.
  intros H. unfold search_try. cbv zeta. unfold bind, lift. now rewrite H.
Qed.

Lemma search_try_first_page req_body body :
  compose StringToNumber NumberToString (destructure req_body) = Normal body ->
  truthy (opt (pit (destructure req_body)) "id") = false ->
  search_try StringToNumber NumberToString es req_body []
  = (Throw (ReferenceError "INDEX is not defined"), []).
Proof.
  intros H Hp. unfold search_try. cbv zeta. unfold bind at 1, lift at 1.
  rewrite H. unfold resolve_pit. rewrite Hp. reflexivity.
Qed.

Lemma search_try_next_page req_body body :
  let r := destructure req_body in
  let pitId := opt (pit r) "id" in
  let keepAlive := keep_alive_of (pit r) in
  let params :=
    VObj ["body" =: attach_pagination body pitId keepAlive (cursor r)] in
  compose StringToNumber NumberToString r = Normal body ->
  truthy pitId = true ->
  search_try StringToNumber NumberToString es req_body []
  = (cbind (search es params) (fun resp =>
     cbind (project_hits resp) (fun hits =>
     Normal (res_json (success_payload resp pitId keepAlive hits)))),
     [Search params]).
Proof.
  cbv zeta. intros H Hp. unfold search_try. cbv zeta.
  unfold bind at 1, lift at 1. rewrite H.
  unfold resolve_pit. rewrite Hp. cbn [negb].
  unfold bind, ret, await, lift, project_response. cbn [app].
  destruct (search es _) as [resp|e]; [|reflexivity].
  cbn [cbind]. destruct (project_hits resp); reflexivity.
Qed.

End SearchFlow.

(* ================================================================== *)
(** * Pagination *)
(* ================================================================== *)

(** C1 (the code at the first page).  A request without a usable
    [pit.id] never reaches the engine: no point in time is opened and no
    search is made, since reading the unbound [INDEX] throws while the
    parameters of the open call are built.  When the body composes, the
    client gets status 500 and the text of that [ReferenceError]. *)
Theorem first_page_reaches_no_engine
  (S2N : jsstring -> number) (N2S : number -> jsstring) (es : Client)
  (req_body : value) :
  truthy (opt (pit (destructure req_body)) "id") = false ->
  fst (search_handler S2N N2S es req_body) = []
  /\ prop (payload (snd (search_handler S2N N2S es req_body))) "ok" = VFalse
  /\ (forall body,
        compose S2N N2S (destructure req_body) = Normal body ->
        snd (search_handler S2N N2S es req_body)
        = {| status := VInt 500;
             payload := VObj ["ok" =: VFalse;
                              "error" =: VStr "INDEX is not defined"] |}).
Proof.
  intros Hp. unfold search_handler.
  destruct (compose S2N N2S (destructure req_body)) as [body|e] eqn:Hc.
  - rewrite (handle_throw _ _ (search_try_first_page S2N N2S es _ Hc Hp)).
    split; [reflexivity|split; [reflexivity|]]. intros _ _. reflexivity.
  - rewrite (handle_throw _ _ (search_try_compose_throws S2N N2S es _ Hc)).
    split; [reflexivity|split; [reflexivity|]]. intros body Hb. discriminate.
Qed.

Lemma first_page_reaches_no_engine_witness :
  search_handler S2N_words N2S_unused es_two_pits (VObj [])
  = ([], {| status := VInt 500;
            payload := VObj ["ok" =: VFalse;
                             "error" =: VStr "INDEX is not defined"] |}).
Proof.
  destruct (first_page_reaches_no_engine S2N_words N2S_unused es_two_pits
              (VObj []) eq_refl) as (Hcalls & _ & Hresp).
  destruct (compose S2N_words N2S_unused (destructure (VObj []))) as [body|e] eqn:Hc;
    [|discriminate].
  specialize (Hresp body eq_refl).
  destruct (search_handler S2N_words N2S_unused es_two_pits (VObj []))
    as [calls r].
  simpl in Hcalls, Hresp. now subst.
Defined.

(** C5 (as amended).  The handler checks no pairing of cursor and
    point in time.  For every request with a truthy [pit.id] whose body
    composes, exactly one engine call is made, a search whose body
    carries the supplied id as [pit.id] and no [from] offset; the
    [cursor] is forwarded unchanged as [search_after] when it is a
    non-empty array and left out otherwise. *)
Theorem cursor_forwarded_unchecked
  (S2N : jsstring -> number) (N2S : number -> jsstring) (es : Client)
  (req_body body : value) :
  let r := destructure req_body in
  truthy (opt (pit r) "id") = true ->
  compose S2N N2S r = Normal body ->
  exists sent,
    fst (search_handler S2N N2S es req_body) = [Search (VObj ["body" =: sent])]
    /\ prop (prop sent "pit") "id" = opt (pit r) "id"
    /\ prop sent "from" = VUndef
    /\ ((exists x xs, cursor r = VArr (x :: xs)) ->
        prop sent "search_after" = cursor r)
    /\ (~ (exists x xs, cursor r = VArr (x :: xs)) ->
        prop sent "search_after" = VUndef).
Proof.
  cbv zeta. intros Hp Hc.
  pose proof (search_try_next_page S2N N2S es req_body Hc Hp) as Ht.
  cbv zeta in Ht.
  destruct (compose_body_inv _ _ _ _ _ _ _ _ _ _ Hc)
    as (must & filter & n & props & _ & _ & _ & -> & _ & _ & _ & _ & Hsa & Hfrom).
  eexists. split.
  - unfold search_handler, handle. rewrite Ht.
    destruct (cbind _ _); reflexivity.
  - split; [now rewrite attach_pagination_pit|].
    split; [rewrite attach_pagination_other by reflexivity; simpl;
            now rewrite Hfrom|].
    rewrite (attach_pagination_cursor _ _ _ _ Hsa).
    split; intros H.
    + apply cursor_attached in H. now rewrite H.
    + destruct (isArray _ && truthy _) eqn:E; [|reflexivity].
      apply cursor_attached in E. contradiction.
Qed.

Lemma cursor_forwarded_unchecked_witness :
  exists sent,
    fst (search_handler S2N_words N2S_unused es_two_pits
           (next_page_of "pit-A" example_cursor))
    = [Search (VObj ["body" =: sent])]
    /\ prop (prop sent "pit") "id" = VStr "pit-A"
    /\ prop sent "search_after" = example_cursor.
Proof.
  destruct (compose S2N_words N2S_unused
              (destructure (next_page_of "pit-A" example_cursor)))
    as [body|e] eqn:Hc; [|discriminate].
  destruct (cursor_forwarded_unchecked S2N_words N2S_unused es_two_pits
              (next_page_of "pit-A" example_cursor) eq_refl Hc)
    as (sent & Hcalls & Hpit & _ & Hcur & _).
  exists sent. split; [exact Hcalls|]. split; [exact Hpit|].
  apply Hcur. eexists; eexists; reflexivity.
Defined.

(** C5 as stated fails.  The page of [pit-A] ends on a hit whose sort
    values are not those of the page of [pit-B]; a request that pairs
    these sort values with [pit-B] is neither rejected nor stripped of its
    cursor: the search call carries both, and the answer is 200. *)
Lemma mismatched_cursor_counterexample :
  prop (payload (snd (search_handler S2N_words N2S_unused es_two_pits
                        (page_of "pit-A")))) "nextCursor"
  = example_cursor
  /\ prop (payload (snd (search_handler S2N_words N2S_unused es_two_pits
                           (page_of "pit-B")))) "nextCursor"
     <> example_cursor
  /\ (exists sent,
        fst (search_handler S2N_words N2S_unused es_two_pits
               (next_page_of "pit-B" example_cursor))
        = [Search (VObj ["body" =: sent])]
        /\ prop sent "search_after" = example_cursor
        /\ prop (prop sent "pit") "id" = VStr "pit-B")
  /\ status (snd (search_handler S2N_words N2S_unused es_two_pits
                    (next_page_of "pit-B" example_cursor)))
     = VInt 200
  /\ prop (payload (snd (search_handler S2N_words N2S_unused es_two_pits
                           (next_page_of "pit-B" example_cursor)))) "ok"
     = VTrue.
Proof.
  split; [vm_compute; reflexivity|].
  split; [vm_compute; discriminate|].
  split; [|split; vm_compute; reflexivity].
  eexists. split; [vm_compute; reflexivity|].
  split; vm_compute; reflexivity.
Qed.

(* ================================================================== *)
(** * The response *)
(* ================================================================== *)

Lemma next_cursor_last (hits : list value) :
  next_cursor hits
  = match hits with
    | [] => VNull
    | _ :: _ => prop (last hits VUndef) "sort"
    end.
Proof.
  unfold next_cursor. rewrite truthy_length_of.
  destruct hits as [|h hs]; [reflexivity|].
  now rewrite nth_pred_length_last.
Qed.

(** A response with [ok: true] is the projection of an engine answer. *)
Lemma search_handler_ok_inv
  (S2N : jsstring -> number) (N2S : number -> jsstring) (es : Client)
  (req_body : value) :
  prop (payload (snd (search_handler S2N N2S es req_body))) "ok" = VTrue ->
  exists body params resp hits,
    let r := destructure req_body in
    compose S2N N2S r = Normal body
    /\ params = VObj ["body" =: attach_pagination body (opt (pit r) "id")
                                  (keep_alive_of (pit r)) (cursor r)]
    /\ search es params = Normal resp
    /\ project_hits resp = Normal hits
    /\ search_handler S2N N2S es req_body
       = ([Search params],
          res_json (success_payload resp (opt (pit r) "id")
                      (keep_alive_of (pit r)) hits)).
Proof.
  unfold search_handler.
  destruct (compose S2N N2S (destructure req_body)) as [body|e] eqn:Hc.
  2:{ rewrite (handle_throw _ _ (search_try_compose_throws S2N N2S es _ Hc)).
      discriminate. }
  destruct (truthy (opt (pit (destructure req_body)) "id")) eqn:Hp.
  2:{ rewrite (handle_throw _ _ (search_try_first_page S2N N2S es _ Hc Hp)).
      discriminate. }
  pose proof (search_try_next_page S2N N2S es req_body Hc Hp) as Ht.
  cbv zeta in Ht. unfold handle. rewrite Ht.
  destruct (search es _) as [resp|e] eqn:Hs; cbn [cbind]; [|discriminate].
  destruct (project_hits resp) as [hits|e] eqn:Hh; cbn [cbind]; [|discriminate].
  intros _. exists body. eexists. exists resp, hits. cbv zeta.
  split; [reflexivity|]. split; [reflexivity|]. split; [exact Hs|].
  split; [exact Hh|reflexivity].
Qed.

(** C6.  In every successful search response, [hits] is a list and
    [nextCursor] is [null] when the list is empty and the [sort] of its
    last element otherwise. *)
Theorem next_cursor_is_last_sort
  (S2N : jsstring -> number) (N2S : number -> jsstring) (es : Client)
  (req_body : value) :
  let out := payload (snd (search_handler S2N N2S es req_body)) in
  prop out "ok" = VTrue ->
  exists hits,
    prop out "hits" = VArr hits
    /\ (hits = [] -> prop out "nextCursor" = VNull)
    /\ (hits <> [] -> prop out "nextCursor" = prop (last hits VUndef) "sort").
Proof.
  cbv zeta. intros Hok.
  destruct (search_handler_ok_inv S2N N2S es req_body Hok)
    as (body & params & resp & hits & H).
  cbv zeta in H. destruct H as (_ & _ & _ & _ & ->).
  exists hits. cbn [snd payload res_json].
  split; [reflexivity|].
  change (prop (success_payload resp (opt (pit (destructure req_body)) "id")
                  (keep_alive_of (pit (destructure req_body))) hits)
               "nextCursor") with (next_cursor hits).
  rewrite next_cursor_last.
  split.
  - now intros ->.
  - destruct hits; [congruence|reflexivity].
Qed.

Lemma next_cursor_is_last_sort_witness :
  prop (payload (snd (search_handler S2N_words N2S_unused es_two_pits
                        (page_of "pit-A")))) "nextCursor"
  = VArr [VInt 1700000000000; VStr "doc#42"]
  /\ prop (payload (snd (search_handler S2N_words N2S_unused es_empty
                           (page_of "pit-A")))) "nextCursor"
     = VNull.
Proof.
  split.
  - destruct (next_cursor_is_last_sort S2N_words N2S_unused es_two_pits
                (page_of "pit-A") eq_refl) as (hits & Hh & _ & Hlast).
    assert (E : hits = [VObj ["id" =: VStr "doc#42";
                              "sort" =: VArr [VInt 1700000000000; VStr "doc#42"];
                              "ts" =: VUndef; "level" =: VUndef;
                              "service" =: VUndef; "code" =: VUndef;
                              "host" =: VUndef; "path" =: VUndef;
                              "message" =: VStr "timeout";
                              "snippet" =: VUndef; "score" =: VInt 1]])
      by (vm_compute in Hh; now injection Hh as <-).
    rewrite Hlast by (rewrite E; discriminate).
    rewrite E. reflexivity.
  - destruct (next_cursor_is_last_sort S2N_words N2S_unused es_empty
                (page_of "pit-A") eq_refl) as (hits & Hh & Hnil & _).
    apply Hnil. vm_compute in Hh. now injection Hh as <-.
Defined.

(** The sort values of a mapped hit are those of the engine hit. *)
Lemma project_hit_sort (h h' : value) :
  project_hit h = Normal h' -> prop h' "sort" = prop h "sort".
Proof.
  unfold project_hit. destruct (member h "_id"); [|discriminate].
  cbn [cbind]. now intros [= <-].
Qed.

(* ================================================================== *)
(** * The rescore stage *)
(* ================================================================== *)

(** C10.  Whenever a body is composed, whatever [q] and the toggles
    are, it holds a rescore stage that is the phrase [connection reset]
    on [message] with slop 1 and boost 6, of weights 1 and 2, over a
    window of [min(1000, n)] where [n] is the effective page size, itself
    at most 1000; and the body of every search call made still holds it. *)
Theorem rescore_is_constant
  (S2N : jsstring -> number) (N2S : number -> jsstring) (es : Client)
  (req_body : value) :
  let r := destructure req_body in
  let stage n :=
    VObj [
      "window_size" =: VNum (Math_min (num_of_Z 1000) n);
      "query" =: VObj [
        "rescore_query" =: VObj [
          "match_phrase" =: VObj [
            "message" =: VObj [
              "query" =: VStr "connection reset";
              "slop" =: VInt 1;
              "boost" =: VInt 6 ] ] ];
        "query_weight" =: VInt 1;
        "rescore_query_weight" =: VInt 2 ] ] in
  (forall body,
      compose S2N N2S r = Normal body ->
      exists n,
        body_size S2N N2S (size r) = Normal n
        /\ prop body "size" = VNum n
        /\ prop body "rescore" = stage n)
  /\ (forall params,
        In (Search params) (fst (search_handler S2N N2S es req_body)) ->
        exists n,
          body_size S2N N2S (size r) = Normal n
          /\ prop (prop params "body") "size" = VNum n
          /\ prop (prop params "body") "rescore" = stage n).
Proof.
  cbv zeta.
  assert (Hcompose : forall body,
    compose S2N N2S (destructure req_body) = Normal body ->
    exists n props,
      body = VObj props
      /\ body_size S2N N2S (size (destructure req_body)) = Normal n
      /\ prop body "size" = VNum n
      /\ prop body "rescore" = rescore_stage n).
  { intros body Hc.
    destruct (compose_body_inv _ _ _ _ _ _ _ _ _ _ Hc)
      as (must & filter & n & props & _ & _ & Hn & -> & Hs & Hr & _).
    exists n, props. simpl. now rewrite Hs, Hr. }
  split.
  - intros body Hc.
    destruct (Hcompose body Hc) as (n & props & _ & Hn & Hs & Hr).
    exists n. now rewrite Hs, Hr.
  - intros params Hin.
    destruct (compose S2N N2S (destructure req_body)) as [body|e] eqn:Hc.
    2:{ unfold search_handler in Hin.
        rewrite (handle_throw _ _ (search_try_compose_throws S2N N2S es _ Hc))
          in Hin. destruct Hin. }
    destruct (truthy (opt (pit (destructure req_body)) "id")) eqn:Hp.
    2:{ unfold search_handler in Hin.
        rewrite (handle_throw _ _ (search_try_first_page S2N N2S es _ Hc Hp))
          in Hin. destruct Hin. }
    destruct (Hcompose body eq_refl) as (n & props & -> & Hn & Hs & Hr).
    pose proof (search_try_next_page S2N N2S es req_body Hc Hp) as Ht.
    cbv zeta in Ht. unfold search_handler, handle in Hin. rewrite Ht in Hin.
    assert (Hp' : params
                  = VObj ["body" =: attach_pagination (VObj props)
                            (opt (pit (destructure req_body)) "id")
                            (keep_alive_of (pit (destructure req_body)))
                            (cursor (destructure req_body))]).
    { destruct (cbind _ _) in Hin; destruct Hin as [[= <-]|[]]; reflexivity. }
    exists n. split; [exact Hn|]. rewrite Hp'.
    change (prop (VObj ["body" =: ?b]) "body") with b.
    rewrite !attach_pagination_other by reflexivity.
    now rewrite Hs, Hr.
Qed.

Lemma rescore_is_constant_witness :
  exists params,
    fst (search_handler S2N_words N2S_unused es_two_pits
           (VObj ["q" =: VStr "disk full"; "size" =: VInt 5000;
                  "highlight" =: VFalse;
                  "pit" =: VObj ["id" =: VStr "pit-A"]]))
    = [Search params]
    /\ prop (prop params "body") "size" = VInt 1000
    /\ prop (prop (prop (prop (prop (prop params "body") "rescore") "query")
                     "rescore_query") "match_phrase") "message"
       = VObj ["query" =: VStr "connection reset";
               "slop" =: VInt 1; "boost" =: VInt 6].
Proof.
  eexists. split; [vm_compute; reflexivity|].
  match goal with |- prop (prop ?p _) _ = _ /\ _ => set (params := p) end.
  destruct (rescore_is_constant S2N_words N2S_unused es_two_pits
              (VObj ["q" =: VStr "disk full"; "size" =: VInt 5000;
                     "highlight" =: VFalse;
                     "pit" =: VObj ["id" =: VStr "pit-A"]])) as [_ H].
  destruct (H params) as (n & Hn & Hs & Hr).
  { left. vm_compute. reflexivity. }
  vm_compute in Hn. injection Hn as <-.
  split; [exact Hs|]. rewrite Hr. reflexivity.
Defined.

(* ================================================================== *)
(** * Facets and timeline *)
(* ================================================================== *)



(** The request side of the toggles: which aggregations the body asks
    for. *)
Lemma aggs_by_toggles
  (S2N : jsstring -> number) (N2S : number -> jsstring) (r : request)
  (body : value) :
  compose S2N N2S r = Normal body ->
  prop body "aggs"
  = match aggs_requested (includeFacets r) (includeTimeline r) with
    | Some a => a
    | None => VUndef
    end.
Proof.
  intros Hc.
  destruct (compose_body_inv _ _ _ _ _ _ _ _ _ _ Hc)
    as (must & filter & n & props & _ & _ & _ & -> & _ & _ & Ha & _).
  simpl. now rewrite Ha.
Qed.

(** C3 (the code at a request that turns facets off).  With
    [includeFacets: false] and the timeline left on, the body asks for the
    timeline aggregation only and the engine answers with it only; the
    response nevertheless carries a facets section, with three empty
    lists. *)
Theorem facets_despite_toggle
  (S2N : jsstring -> number) (N2S : number -> jsstring) :
  truthy (includeFacets (destructure no_facets_request)) = false
  /\ exists sent out,
      search_handler S2N N2S es_timeline_only no_facets_request
      = ([Search (VObj ["body" =: sent])], {| status := VInt 200; payload := out |})
      /\ prop sent "aggs" = VObj ["timeline" =: timeline_agg]
      /\ prop out "facets"
         = VObj ["services" =: VArr []; "levels" =: VArr [];
                 "errorCodes" =: VArr []]
      /\ present out "facets".
Proof.
  split; [reflexivity|].
  eexists. eexists. split; [vm_compute; reflexivity|].
  split; [reflexivity|]. split; [reflexivity|]. discriminate.
Qed.

Example flat_envelope_drops_sections :
  let out := payload (snd (search_handler S2N_words N2S_unused es_flat_envelope
                             (page_of "pit-A"))) in
  prop out "ok" = VTrue
  /\ (exists h, prop out "hits" = VArr [h])
  /\ prop out "facets" = VUndef
  /\ prop out "timeline" = VUndef.
Proof.
  cbv zeta. split; [reflexivity|]. split; [eexists; vm_compute; reflexivity|].
  split; reflexivity.
Qed.

(* ================================================================== *)
(** * The page size *)
(* ================================================================== *)

Lemma Math_min_upper (m : number) :
  m <> NaN -> num_leb (Math_min m (num_of_Z 1000)) (num_of_Z 1000) = true.
Proof.
  intros Hm. destruct m as [|[|]|x]; try congruence; try reflexivity.
  unfold Math_min, num_of_Z. cbn [num_leb].
  destruct (Qle_bool x (inject_Z 1000)) eqn:E; [exact E|reflexivity].
Qed.

Lemma Math_min_lower (m : number) :
  num_leb (num_of_Z 1) m = true ->
  num_leb (num_of_Z 1) (Math_min m (num_of_Z 1000)) = true.
Proof.
  intros Hm. destruct m as [|[|]|x]; try discriminate; try reflexivity.
  unfold Math_min, num_of_Z. cbn [num_leb].
  destruct (Qle_bool x (inject_Z 1000)) eqn:E; [exact Hm|reflexivity].
Qed.

Lemma num_truthy_not_NaN (m : number) : num_truthy m = true -> m <> NaN.
Proof. intros H ->. discriminate. Qed.

(** C2 (as amended).  The effective page size is decided by
    [m = Number(size)]: it is [min(m, 1000)] when [m] is neither zero nor
    [NaN], and 50 otherwise; an absent [size] counts as 100.  It never
    exceeds 1000, and it is at least 1 when [size] is absent, non-numeric,
    zero, or itself at least 1.  There is no lower clamp.  (Where the
    conversion itself throws, on an object that carries its own
    [toString], no size is computed.) *)
Theorem page_size_rule (S2N : jsstring -> number) (N2S : number -> jsstring) :
  (forall s m,
      ToNumber S2N N2S s = Normal m ->
      let n := if num_truthy m then Math_min m (num_of_Z 1000)
               else num_of_Z 50 in
      body_size S2N N2S s = Normal n
      /\ num_leb n (num_of_Z 1000) = true
      /\ (num_leb (num_of_Z 1) m = true \/ num_truthy m = false ->
          num_leb (num_of_Z 1) n = true))
  /\ (forall s e,
        ToNumber S2N N2S s = Throw e -> body_size S2N N2S s = Throw e)
  /\ (forall req_body,
        prop (or_else req_body (VObj [])) "size" = VUndef ->
        body_size S2N N2S (size (destructure req_body))
        = Normal (num_of_Z 100))
  /\ (forall req_body,
        prop (or_else req_body (VObj [])) "size" <> VUndef ->
        size (destructure req_body) = prop (or_else req_body (VObj [])) "size").
Proof.
  split; [|split; [|split]].
  2:{ intros s e He. unfold body_size. now rewrite He. }
  - intros s m Hm. cbv zeta. unfold body_size. rewrite Hm. cbn [cbind].
    destruct (num_truthy m) eqn:Ht.
    + split; [reflexivity|]. split.
      * apply Math_min_upper. now apply num_truthy_not_NaN.
      * intros [H|H]; [now apply Math_min_lower|discriminate].
    + split; [reflexivity|]. split; [reflexivity|]. intros _. reflexivity.
  - intros req_body H. unfold destructure. cbv zeta. cbn [size].
    unfold field_or. rewrite H. reflexivity.
  - intros req_body H. unfold destructure. cbv zeta. cbn [size].
    unfold field_or. destruct (prop _ "size"); congruence.
Qed.

Lemma page_size_rule_witness :
  body_size S2N_words N2S_unused (VInt 5000) = Normal (num_of_Z 1000)
  /\ body_size S2N_words N2S_unused (VStr "many") = Normal (num_of_Z 50)
  /\ body_size S2N_words N2S_unused (size (destructure (VObj [])))
     = Normal (num_of_Z 100).
Proof.
  destruct (page_size_rule S2N_words N2S_unused) as (Hs & _ & Habsent & _).
  split; [|split].
  - destruct (Hs (VInt 5000) (num_of_Z 5000) eq_refl) as (H & _). exact H.
  - destruct (Hs (VStr "many") NaN eq_refl) as (H & _). exact H.
  - apply Habsent. reflexivity.
Defined.

(** C2 as stated fails: a negative size passes through unclamped, and
    a size of zero gives 50, which is not [min(0, 1000)]. *)
Lemma page_size_counterexample :
  body_size S2N_words N2S_unused (VInt (-5)) = Normal (num_of_Z (-5))
  /\ num_leb (num_of_Z 1) (num_of_Z (-5)) = false
  /\ body_size S2N_words N2S_unused (VInt 0) = Normal (num_of_Z 50)
  /\ Math_min (num_of_Z 0) (num_of_Z 1000) = num_of_Z 0.
Proof. repeat split. Qed.

(* ================================================================== *)
(** * The two match legs *)
(* ================================================================== *)







(* ================================================================== *)
(** * Further properties of the sanitised query *)
(* ================================================================== *)

Lemma kept_after (c : code_unit) : kept (if kept c then c else space) = true.
Proof. destruct (kept c) eqn:E; [exact E|reflexivity]. Qed.

(** X1.  Sanitising leaves nothing to sanitise: every code unit of the
    result is a word character, white space or a double quote, and
    sanitising a second time changes nothing. *)
Theorem sanitize_idempotent (s : jsstring) :
  forallb kept (sanitize s) = true
  /\ sanitize (sanitize s) = sanitize s.
Proof.
  unfold sanitize. induction s as [|c s [IHk IHi]]; [split; reflexivity|].
  cbn [map forallb]. rewrite kept_after, IHk, IHi. split; reflexivity.
Qed.

(** X2.  The sanitised copy is the query itself exactly when the query
    holds only word characters, white space and double quotes; and
    sanitising works piece by piece: the copy of a concatenation is the
    concatenation of the copies. *)
Theorem sanitize_fixes_clean_queries (s t : jsstring) :
  (sanitize s = s <-> forallb kept s = true)
  /\ sanitize (s ++ t) = sanitize s ++ sanitize t.
Proof.
  split; [|apply map_app].
  unfold sanitize. induction s as [|c s IH]; [split; reflexivity|].
  cbn [map forallb]. split.
  - intros [= Hc Hs]. apply IH in Hs. rewrite Hs, andb_true_r.
    destruct (kept c) eqn:E; [reflexivity|]. subst c. discriminate.
  - intros H. apply andb_true_iff in H as [Hc Hs].
    rewrite Hc. f_equal. now apply IH.
Qed.

(* ================================================================== *)
(** * Further properties of [asArray] and the filter *)
(* ================================================================== *)

(** X3.  [asArray] always answers an array.  The array is empty exactly
    for [null], [undefined] and the empty array; any other value that is
    not an array is wrapped alone. *)
Theorem asArray_shape (v : value) :
  exists l,
    asArray v = VArr l
    /\ (l = [] <-> nullish v = true \/ v = VArr [])
    /\ (nullish v = false -> isArray v = false -> l = [v]).
Proof.
  destruct v as [| | b | n | s | elems | props];
    try (eexists; split; [reflexivity|]; split;
         [split; [intros; now left | reflexivity] | discriminate]);
    try (eexists; split; [reflexivity|]; split;
         [split; [discriminate | intros [H|H]; discriminate]
         | reflexivity]).
  exists elems. split; [reflexivity|]. split; [|discriminate].
  split.
  - intros ->. now right.
  - intros [H|[= H]]; [discriminate|exact H].
Qed.

(** A terms clause is left out exactly when nothing is supplied. *)
Lemma terms_clause_nil_iff (field : string) (v : value) :
  terms_clause field v = [] <-> nullish v = true \/ v = VArr [].
Proof.
  unfold terms_clause.
  destruct v as [| | b | n | s | [|x xs] | props]; cbn;
    (split; [intros H; try discriminate H; auto | intros [H|H]; try discriminate H; auto]).
Qed.

(* ================================================================== *)
(** * Further properties of the page size *)
(* ================================================================== *)

Lemma Qle_bool_refl (x : Q) : Qle_bool x x = true.
Proof. apply Qle_bool_iff. apply Qle_refl. Qed.

Lemma Math_min_not_NaN (m : number) :
  m <> NaN -> Math_min m (num_of_Z 1000) <> NaN.
Proof.
  intros Hm. destruct m as [|[|]|x]; try congruence; try discriminate.
  unfold Math_min, num_of_Z. cbn [num_leb].
  destruct (Qle_bool x (inject_Z 1000)); discriminate.
Qed.

Lemma Math_min_again (n : number) :
  n <> NaN -> num_leb n (num_of_Z 1000) = true ->
  num_leb (Math_min (num_of_Z 1000) n) n = true
  /\ num_leb n (Math_min (num_of_Z 1000) n) = true.
Proof.
  intros Hn Hle. destruct n as [|[|]|x]; try congruence; try discriminate.
  - split; reflexivity.
  - unfold Math_min, num_of_Z in *. cbn [num_leb] in *.
    destruct (Qle_bool (inject_Z 1000) x) eqn:E; cbn [num_leb].
    + split; assumption.
    + split; apply Qle_bool_refl.
Qed.

(** X4.  The window of the rescore stage always has the value of the
    page size: taking the minimum with 1000 a second time changes
    nothing, whatever size was requested. *)
Theorem rescore_window_is_page_size
  (S2N : jsstring -> number) (N2S : number -> jsstring) (s : value) (n : number) :
  body_size S2N N2S s = Normal n ->
  n <> NaN
  /\ num_leb (Math_min (num_of_Z 1000) n) n = true
  /\ num_leb n (Math_min (num_of_Z 1000) n) = true.
Proof.
  unfold body_size. destruct (ToNumber S2N N2S s) as [m|e]; [|discriminate].
  cbn [cbind]. intros [= <-].
  set (m' := if num_truthy m then m else num_of_Z 50).
  assert (Hm' : m' <> NaN).
  { unfold m'. destruct (num_truthy m) eqn:E; [|discriminate].
    now apply num_truthy_not_NaN. }
  split; [now apply Math_min_not_NaN|].
  apply Math_min_again; [now apply Math_min_not_NaN|now apply Math_min_upper].
Qed.

Lemma rescore_window_is_page_size_witness :
  Math_min (num_of_Z 1000) (num_of_Z 20) = num_of_Z 20
  /\ num_leb (num_of_Z 20) (Math_min (num_of_Z 1000) (num_of_Z 20)) = true.
Proof.
  destruct (rescore_window_is_page_size S2N_words N2S_unused
              (VInt 20) (n := num_of_Z 20) eq_refl) as (_ & _ & H).
  split; [reflexivity|exact H].
Defined.

(* ================================================================== *)
(** * The client options *)
(* ================================================================== *)

(** X5.  Credentials are handed to the client only when both the user
    and the password are set and non-empty, and then as they are; with
    one of them missing or empty no credentials are handed over at all.
    Certificate verification is switched off whatever the environment,
    and the node is the configured URL or, without one, the local
    default. *)
Theorem client_credentials (env : string -> value) :
  let options := client_options env in
  (truthy (env "ELASTIC_USER") = true -> truthy (env "ELASTIC_PASS") = true ->
   prop options "auth"
   = VObj ["username" =: env "ELASTIC_USER"; "password" =: env "ELASTIC_PASS"])
  /\ (truthy (env "ELASTIC_USER") = false \/ truthy (env "ELASTIC_PASS") = false ->
      prop options "auth" = VUndef)
  /\ prop (prop options "tls") "rejectUnauthorized" = VFalse
  /\ (truthy (env "ELASTIC_URL") = true -> prop options "node" = env "ELASTIC_URL")
  /\ (truthy (env "ELASTIC_URL") = false ->
      prop options "node" = VStr "http://localhost:9000").
Proof.
  cbv zeta. unfold client_options, or_else. cbn [prop lookup str_eqb lit].
  change (prop (VObj ?l) ?k) with
    (match lookup k l with Some v => v | None => VUndef end).
  cbn.
  split; [intros -> ->; reflexivity|].
  split; [intros [-> | ->]; [reflexivity|now rewrite andb_false_r]|].
  split; [reflexivity|].
  split; intros ->; reflexivity.
Qed.

Lemma client_credentials_witness :
  prop (client_options (env_of [("ELASTIC_USER", "elastic")])) "auth" = VUndef
  /\ prop (client_options
             (env_of [("ELASTIC_USER", "elastic"); ("ELASTIC_PASS", "s3cret")]))
          "auth"
     = VObj ["username" =: VStr "elastic"; "password" =: VStr "s3cret"]
  /\ prop (client_options (env_of [])) "node" = VStr "http://localhost:9000".
Proof.
  split; [|split].
  - destruct (client_credentials (env_of [("ELASTIC_USER", "elastic")]))
      as (_ & H & _).
    apply H. right. reflexivity.
  - destruct (client_credentials
                (env_of [("ELASTIC_USER", "elastic"); ("ELASTIC_PASS", "s3cret")]))
      as (H & _).
    apply (H eq_refl eq_refl).
  - destruct (client_credentials (env_of [])) as (_ & _ & _ & _ & H).
    apply (H eq_refl).
Defined.

Lemma sanitize_fixes_clean_queries_witness :
  sanitize "disk full" = lit "disk full"
  /\ sanitize (lit "disk-full" ++ lit " now") = lit "disk full now".
Proof.
  destruct (sanitize_fixes_clean_queries (lit "disk full") []) as [[_ H] _].
  split; [apply H; reflexivity|].
  destruct (sanitize_fixes_clean_queries (lit "disk-full") (lit " now"))
    as [_ H'].
  rewrite H'. reflexivity.
Defined.

Lemma asArray_shape_witness :
  asArray (VStr "error") = VArr [VStr "error"] /\ asArray VNull = VArr [].
Proof.
  split.
  - destruct (asArray_shape (VStr "error")) as (l & Hl & _ & Hs).
    rewrite Hl, (Hs eq_refl eq_refl). reflexivity.
  - destruct (asArray_shape VNull) as (l & Hl & [_ He] & _).
    rewrite Hl, He; [reflexivity|now left].
Defined.

(* ================================================================== *)
(** * Absent, empty and malformed request fields *)
(* ================================================================== *)

Lemma destructure_levels_absent props :
  lookup "levels" props = None ->
  destructure (with_field props "levels" (VArr [])) = destructure (VObj props).
Proof.
  intros H. rewrite destructure_with_levels by discriminate.
  cbv zeta. unfold destructure.
  replace (or_else (VObj props) (VObj [])) with (VObj props) by reflexivity.
  cbv zeta.
  cbn [q services levels time size pit cursor highlight includeTimeline
       includeFacets].
  f_equal. unfold field_or, prop. now rewrite H.
Qed.

Lemma destructure_services_absent props :
  lookup "services" props = None ->
  destructure (with_field props "services" (VArr [])) = destructure (VObj props).
Proof.
  intros H. rewrite destructure_with_services by discriminate.
  cbv zeta. unfold destructure.
  replace (or_else (VObj props) (VObj [])) with (VObj props) by reflexivity.
  cbv zeta.
  cbn [q services levels time size pit cursor highlight includeTimeline
       includeFacets].
  f_equal. unfold field_or, prop. now rewrite H.
Qed.

Lemma search_handler_of_destructure S2N N2S es (a b : value) :
  destructure a = destructure b ->
  search_handler S2N N2S es a = search_handler S2N N2S es b.
Proof.
  intros H. unfold search_handler, search_try. now rewrite H.
Qed.

(** X6.  For [levels] as for [services], an empty list and [null] are
    handled exactly as a request that does not name the field: the same
    engine calls and the same response, with no terms clause for it. *)
Theorem empty_list_is_absent
  (S2N : jsstring -> number) (N2S : number -> jsstring) (es : Client)
  (props : list (jsstring * value)) :
  (lookup "levels" props = None ->
   search_handler S2N N2S es (with_field props "levels" (VArr []))
   = search_handler S2N N2S es (VObj props)
   /\ search_handler S2N N2S es (with_field props "levels" VNull)
      = search_handler S2N N2S es (VObj props))
  /\ (lookup "services" props = None ->
      search_handler S2N N2S es (with_field props "services" (VArr []))
      = search_handler S2N N2S es (VObj props)
      /\ search_handler S2N N2S es (with_field props "services" VNull)
         = search_handler S2N N2S es (VObj props))
  /\ (forall field, terms_clause field (VArr []) = []
                    /\ terms_clause field VNull = []).
Proof.
  split; [|split].
  - intros H.
    assert (E : search_handler S2N N2S es (with_field props "levels" (VArr []))
                = search_handler S2N N2S es (VObj props))
      by (apply search_handler_of_destructure;
          now apply destructure_levels_absent).
    split; [exact E|]. rewrite <- E.
    apply search_handler_levels; try discriminate. reflexivity.
  - intros H.
    assert (E : search_handler S2N N2S es (with_field props "services" (VArr []))
                = search_handler S2N N2S es (VObj props))
      by (apply search_handler_of_destructure;
          now apply destructure_services_absent).
    split; [exact E|]. rewrite <- E.
    apply search_handler_services; try discriminate. reflexivity.
  - intros field. split; reflexivity.
Qed.

Lemma empty_list_is_absent_witness :
  search_handler S2N_words N2S_unused es_two_pits
    (with_field ["pit" =: VObj ["id" =: VStr "pit-A"]] "levels" VNull)
  = search_handler S2N_words N2S_unused es_two_pits
      (VObj ["pit" =: VObj ["id" =: VStr "pit-A"]]).
Proof.
  destruct (empty_list_is_absent S2N_words N2S_unused es_two_pits
              ["pit" =: VObj ["id" =: VStr "pit-A"]]) as [H _].
  destruct (H eq_refl) as [_ Hn]. exact Hn.
Defined.

Lemma destructure_with_time props v :
  v <> VUndef ->
  destructure (with_field props "time" v)
  = let r := destructure (VObj props) in
    {| q := q r; services := services r; levels := levels r; time := v;
       size := size r; pit := pit r; cursor := cursor r;
       highlight := highlight r; includeTimeline := includeTimeline r;
       includeFacets := includeFacets r |}.
Proof.
  intros Hv. unfold destructure.
  replace (or_else (with_field props "time" v) (VObj []))
    with (with_field props "time" v) by reflexivity.
  replace (or_else (VObj props) (VObj [])) with (VObj props) by reflexivity.
  cbv zeta.
  rewrite field_or_with_same by assumption.
  rewrite !field_or_with_other, !prop_with_other by reflexivity.
  reflexivity.
Qed.

(** X7.  A request whose [time] is [null] is answered 500 with the text
    of the failed property read, and the engine is not called at all, with
    or without a point-in-time id ([q] being a string or left out). *)
Theorem null_time_fails_before_engine
  (S2N : jsstring -> number) (N2S : number -> jsstring) (es : Client)
  (props : list (jsstring * value)) (s : jsstring) :
  q (destructure (VObj props)) = VStr s ->
  search_handler S2N N2S es (with_field props "time" VNull)
  = ([], {| status := VInt 500;
            payload := VObj [
              "ok" =: VFalse;
              "error" =: VStr "Cannot read properties of null (reading 'gte')"] |}).
Proof.
  intros Hq.
  assert (Hc : compose S2N N2S (destructure (with_field props "time" VNull))
               = Throw (TypeError
                          "Cannot read properties of null (reading 'gte')")).
  { rewrite destructure_with_time by discriminate. cbv zeta.
    unfold compose, compose_body.
    cbn [q services levels time size pit cursor highlight includeTimeline
         includeFacets].
    rewrite Hq. reflexivity. }
  unfold search_handler.
  rewrite (handle_throw _ _ (search_try_compose_throws S2N N2S es _ Hc)).
  reflexivity.
Qed.

Lemma null_time_fails_before_engine_witness :
  fst (search_handler S2N_words N2S_unused es_two_pits
         (with_field ["pit" =: VObj ["id" =: VStr "pit-A"]] "time" VNull))
  = [].
Proof.
  rewrite (null_time_fails_before_engine S2N_words N2S_unused es_two_pits
             ["pit" =: VObj ["id" =: VStr "pit-A"]] (s := default_q) eq_refl).
  reflexivity.
Defined.

(** X8.  The time bounds are not validated.  Of a [time] that is not
    [null], a truthy [gte] or [lte] is forwarded as it is, of whatever
    type, and a missing or falsy one is replaced by its default; a [time]
    that is not an object therefore gets both defaults.  The range clause
    always comes first in the filter. *)
Theorem time_bounds_forwarded (time levels services : value) :
  nullish time = false ->
  exists gte lte rest,
    build_filter time levels services
    = Normal (VArr (VObj ["range" =: VObj ["@timestamp" =: VObj [
                            "gte" =: gte; "lte" =: lte]]] :: rest))
    /\ (truthy (prop time "gte") = true -> gte = prop time "gte")
    /\ (truthy (prop time "gte") = false -> gte = VStr "now-24h")
    /\ (truthy (prop time "lte") = true -> lte = prop time "lte")
    /\ (truthy (prop time "lte") = false -> lte = VStr "now")
    /\ ((forall props, time <> VObj props) ->
        gte = VStr "now-24h" /\ lte = VStr "now").
Proof.
  intros Hn.
  assert (Hm : forall k, member time k = Normal (prop time k))
    by (intros k; destruct time; try discriminate; reflexivity).
  unfold build_filter. rewrite !Hm. cbn [cbind].
  eexists. eexists. eexists. split; [reflexivity|].
  unfold or_else.
  split; [intros ->; reflexivity|]. split; [intros ->; reflexivity|].
  split; [intros ->; reflexivity|]. split; [intros ->; reflexivity|].
  intros Hobj. destruct time; try (split; reflexivity).
  now elim (Hobj props).
Qed.

Lemma time_bounds_forwarded_witness :
  exists rest,
    build_filter (VObj ["gte" =: VStr "now-6h"]) (VArr []) (VArr [])
    = Normal (VArr (VObj ["range" =: VObj ["@timestamp" =: VObj [
                            "gte" =: VStr "now-6h"; "lte" =: VStr "now"]]]
                    :: rest)).
Proof.
  destruct (time_bounds_forwarded (VObj ["gte" =: VStr "now-6h"])
              (VArr []) (VArr []) eq_refl)
    as (gte & lte & rest & H & Hg & _ & _ & Hl & _).
  exists rest. rewrite H, (Hg eq_refl), (Hl eq_refl). reflexivity.
Defined.

(** A body that is not an object destructures as the empty object. *)
Lemma destructure_non_object (req_body : value) :
  (forall props, req_body <> VObj props) ->
  destructure req_body = destructure (VObj []).
Proof.
  intros H. unfold destructure, or_else.
  destruct req_body as [| | b | n | s | elems | props];
    try reflexivity.
  - destruct b; reflexivity.
  - cbn [truthy]. destruct (num_truthy n); reflexivity.
  - destruct s; reflexivity.
  - now elim (H props).
Qed.

(** X9.  A request without a body, or whose body is not an object (a
    string, a number, a list, [null]), is served by both routes exactly as
    the empty object: the search takes every default, the close answers
    400 without a call. *)
Theorem non_object_body_is_empty_request
  (S2N : jsstring -> number) (N2S : number -> jsstring) (es : Client)
  (req_body : value) :
  (forall props, req_body <> VObj props) ->
  search_handler S2N N2S es req_body = search_handler S2N N2S es (VObj [])
  /\ close_pit_handler es req_body
     = ([], {| status := VInt 400;
               payload := VObj ["ok" =: VFalse;
                                "error" =: VStr "Missing PIT id"] |}).
Proof.
  intros H. split.
  - apply search_handler_of_destructure. now apply destructure_non_object.
  - destruct req_body; try reflexivity. now elim (H props).
Qed.

Lemma non_object_body_is_empty_request_witness :
  search_handler S2N_words N2S_unused es_two_pits VUndef
  = search_handler S2N_words N2S_unused es_two_pits (VObj [])
  /\ fst (close_pit_handler es_two_pits (VArr [VStr "pit-A"])) = [].
Proof.
  split.
  - apply (non_object_body_is_empty_request S2N_words N2S_unused es_two_pits).
    discriminate.
  - destruct (non_object_body_is_empty_request S2N_words N2S_unused
                es_two_pits (req_body := VArr [VStr "pit-A"])) as [_ H];
      [discriminate|].
    rewrite H. reflexivity.
Defined.

(* ================================================================== *)
(** * Engine calls of a run *)
(* ================================================================== *)

(** X10.  No run of the search route makes more than one engine call,
    and the call it makes is a search: a failed search is not retried,
    and the route neither opens nor closes a point in time.  No run of the
    close route makes more than one call, and that call is the close. *)
Theorem at_most_one_engine_call
  (S2N : jsstring -> number) (N2S : number -> jsstring) (es : Client)
  (req_body : value) :
  (fst (search_handler S2N N2S es req_body) = []
   \/ exists params, fst (search_handler S2N N2S es req_body) = [Search params])
  /\ (fst (close_pit_handler es req_body) = []
      \/ exists params,
          fst (close_pit_handler es req_body) = [ClosePointInTime params]).
Proof.
  split.
  - unfold search_handler.
    destruct (compose S2N N2S (destructure req_body)) as [body|e] eqn:Hc.
    2:{ left.
        now rewrite (handle_throw _ _
                       (search_try_compose_throws S2N N2S es _ Hc)). }
    destruct (truthy (opt (pit (destructure req_body)) "id")) eqn:Hp.
    2:{ left.
        now rewrite (handle_throw _ _
                       (search_try_first_page S2N N2S es _ Hc Hp)). }
    right. pose proof (search_try_next_page S2N N2S es req_body Hc Hp) as Ht.
    cbv zeta in Ht. unfold handle. rewrite Ht.
    eexists. destruct (cbind _ _); reflexivity.
  - unfold close_pit_handler, close_pit_try, handle.
    destruct (truthy (opt req_body "id")); cbn [negb].
    + right. unfold bind, await, ret. cbn [app].
      eexists. destruct (closePointInTime es _); reflexivity.
    + left. reflexivity.
Qed.

(* ================================================================== *)
(** * Further properties of the response *)
(* ================================================================== *)

Lemma map_c_nth {A B} (f : A -> completion B) (l : list A) (l' : list B) :
  map_c f l = Normal l' ->
  List.length l' = List.length l
  /\ forall i x, nth_error l i = Some x ->
       exists y, nth_error l' i = Some y /\ f x = Normal y.
Proof.
  revert l'. induction l as [|a l IH]; intros l'; cbn [map_c].
  - intros [= <-]. split; [reflexivity|]. intros [|i] x H; discriminate.
  - destruct (f a) as [b|e] eqn:Ha; cbn [cbind]; [|discriminate].
    destruct (map_c f l) as [bs|e]; cbn [cbind]; [|discriminate].
    intros [= <-]. destruct (IH bs eq_refl) as [Hlen Hnth].
    split; [cbn; now rewrite Hlen|].
    intros [|i] x H; cbn in H |- *.
    + injection H as <-. now exists b.
    + now apply Hnth.
Qed.

Lemma map_c_Forall {A B} (f : A -> completion B) (P : B -> Prop)
  (l : list A) (l' : list B) :
  (forall x y, f x = Normal y -> P y) ->
  map_c f l = Normal l' -> Forall P l'.
Proof.
  intros HP. revert l'. induction l as [|a l IH]; intros l'; cbn [map_c].
  - intros [= <-]. constructor.
  - destruct (f a) as [b|e] eqn:Ha; cbn [cbind]; [|discriminate].
    destruct (map_c f l) as [bs|e]; cbn [cbind]; [|discriminate].
    intros [= <-]. constructor; [now apply (HP a)|now apply IH].
Qed.

Lemma map_c_defined_iff {A B} (f : A -> completion B) (l : list A) :
  (exists l', map_c f l = Normal l')
  <-> Forall (fun x => exists y, f x = Normal y) l.
Proof.
  induction l as [|a l IH]; cbn [map_c].
  - split; [constructor|]. intros _. now exists [].
  - split.
    + intros [l' H]. destruct (f a) as [b|e] eqn:Ha; cbn [cbind] in H;
        [|discriminate].
      destruct (map_c f l) as [bs|e]; cbn [cbind] in H; [|discriminate].
      constructor; [now exists b|]. apply IH. now exists bs.
    + intros H. inversion H as [|? ? [b Hb] Hl]; subst.
      apply IH in Hl as [bs Hbs]. rewrite Hb, Hbs. now exists (b :: bs).
Qed.

Lemma project_hit_defined_iff (h : value) :
  (exists h', project_hit h = Normal h') <-> nullish h = false.
Proof.
  unfold project_hit. destruct h; cbn [member cbind nullish];
    (split; [intros [h' H]; try discriminate H; reflexivity
            |intros H; try discriminate H; eexists; reflexivity]).
Qed.

Lemma project_hits_eq (resp : value) :
  nullish resp = false ->
  project_hits resp
  = match engine_hits resp with
    | VArr hs => map_c project_hit hs
    | _ =>
        Throw (TypeError
          "(intermediate value)(intermediate value)(intermediate value).map is not a function")
    end.
Proof.
  intros H. unfold project_hits, engine_hits.
  destruct resp; try discriminate; reflexivity.
Qed.

Lemma project_hits_nullish (resp : value) :
  nullish resp = true -> exists e, project_hits resp = Throw e.
Proof.
  unfold project_hits. destruct resp; try discriminate; intros _;
    eexists; reflexivity.
Qed.

(** The mapped hits are the engine hits, one for one and in order. *)
Lemma project_hits_positions (resp : value) (hits : list value) :
  project_hits resp = Normal hits ->
  exists engine,
    engine_hits resp = VArr engine
    /\ List.length hits = List.length engine
    /\ forall i h,
         nth_error engine i = Some h ->
         exists h',
           nth_error hits i = Some h'
           /\ prop h' "id" = prop h "_id"
           /\ prop h' "sort" = prop h "sort"
           /\ prop h' "score" = prop h "_score"
           /\ prop h' "message" = opt (prop h "_source") "message".
Proof.
  intros H.
  destruct (nullish resp) eqn:Hn.
  { destruct (project_hits_nullish resp Hn) as [e He]. congruence. }
  rewrite (project_hits_eq resp Hn) in H.
  destruct (engine_hits resp) as [| | | | |engine|]; try discriminate.
  exists engine. split; [reflexivity|].
  destruct (map_c_nth _ _ H) as [Hlen Hnth]. split; [exact Hlen|].
  intros i h Hi. destruct (Hnth i h Hi) as (h' & Hi' & Hp).
  exists h'. split; [exact Hi'|].
  unfold project_hit in Hp. destruct h; try discriminate;
    cbn [member cbind] in Hp; injection Hp as <-; repeat split.
Qed.

(** When the mapping of the hits goes through. *)
Lemma project_hits_defined_cases (resp : value) :
  (exists hits, project_hits resp = Normal hits)
  <-> nullish resp = false
      /\ exists engine,
           engine_hits resp = VArr engine
           /\ forallb (fun h => negb (nullish h)) engine = true.
Proof.
  split.
  - intros [hits H].
    destruct (nullish resp) eqn:Hn.
    { destruct (project_hits_nullish resp Hn) as [e He]. congruence. }
    split; [reflexivity|].
    rewrite (project_hits_eq resp Hn) in H.
    destruct (engine_hits resp) as [| | | | |engine|]; try discriminate.
    exists engine. split; [reflexivity|].
    apply forallb_forall. intros h Hin.
    assert (Hd : exists l', map_c project_hit engine = Normal l')
      by now exists hits.
    apply map_c_defined_iff in Hd.
    rewrite Forall_forall in Hd. apply Hd in Hin.
    apply project_hit_defined_iff in Hin. now rewrite Hin.
  - intros (Hn & engine & He & Hall).
    rewrite (project_hits_eq resp Hn), He.
    apply map_c_defined_iff. apply Forall_forall. intros h Hin.
    apply project_hit_defined_iff.
    rewrite forallb_forall in Hall. apply Hall in Hin.
    now destruct (nullish h).
Qed.

(* ================================================================== *)
(** * The point in time across a page *)
(* ================================================================== *)

Lemma keep_alive_truthy (pit : value) : truthy (keep_alive_of pit) = true.
Proof.
  unfold keep_alive_of, or_else.
  destruct (truthy (opt pit "keep_alive")) eqn:E; [exact E|reflexivity].
Qed.

(** A successful run, with the point-in-time id it was given. *)
Lemma search_ok_run
  (S2N : jsstring -> number) (N2S : number -> jsstring) (es : Client)
  (req_body : value) :
  prop (payload (snd (search_handler S2N N2S es req_body))) "ok" = VTrue ->
  exists body resp hits,
    let r := destructure req_body in
    let params :=
      VObj ["body" =: attach_pagination body (opt (pit r) "id")
                        (keep_alive_of (pit r)) (cursor r)] in
    compose S2N N2S r = Normal body
    /\ truthy (opt (pit r) "id") = true
    /\ search es params = Normal resp
    /\ project_hits resp = Normal hits
    /\ search_handler S2N N2S es req_body
       = ([Search params],
          res_json (success_payload resp (opt (pit r) "id")
                      (keep_alive_of (pit r)) hits)).
Proof.
  unfold search_handler.
  destruct (compose S2N N2S (destructure req_body)) as [body|e] eqn:Hc.
  2:{ rewrite (handle_throw _ _ (search_try_compose_throws S2N N2S es _ Hc)).
      discriminate. }
  destruct (truthy (opt (pit (destructure req_body)) "id")) eqn:Hp.
  2:{ rewrite (handle_throw _ _ (search_try_first_page S2N N2S es _ Hc Hp)).
      discriminate. }
  pose proof (search_try_next_page S2N N2S es req_body Hc Hp) as Ht.
  cbv zeta in Ht. unfold handle. rewrite Ht.
  destruct (search es _) as [resp|e] eqn:Hs; cbn [cbind]; [|discriminate].
  destruct (project_hits resp) as [hits|e] eqn:Hh; cbn [cbind]; [|discriminate].
  intros _. exists body, resp, hits. cbv zeta.
  split; [reflexivity|]. split; [reflexivity|]. split; [exact Hs|].
  split; [exact Hh|reflexivity].
Qed.

(** X14.  A successful response hands back a usable point in time: its
    [pit.id] is the id the engine returned with the page when it returned
    one, and the id of the request otherwise, and it is never empty; its
    [pit.keep_alive] is the one the search call carried, which is the
    request's or one minute. *)
Theorem pit_threaded_through
  (S2N : jsstring -> number) (N2S : number -> jsstring) (es : Client)
  (req_body : value) :
  let r := destructure req_body in
  let out := payload (snd (search_handler S2N N2S es req_body)) in
  prop out "ok" = VTrue ->
  exists params resp,
    fst (search_handler S2N N2S es req_body) = [Search params]
    /\ search es params = Normal resp
    /\ (truthy (opt (prop resp "body") "pit_id") = true ->
        prop (prop out "pit") "id" = opt (prop resp "body") "pit_id")
    /\ (truthy (opt (prop resp "body") "pit_id") = false ->
        prop (prop out "pit") "id" = opt (pit r) "id")
    /\ truthy (prop (prop out "pit") "id") = true
    /\ prop (prop out "pit") "keep_alive"
       = prop (prop (prop params "body") "pit") "keep_alive"
    /\ (truthy (opt (pit r) "keep_alive") = true ->
        prop (prop out "pit") "keep_alive" = opt (pit r) "keep_alive")
    /\ (truthy (opt (pit r) "keep_alive") = false ->
        prop (prop out "pit") "keep_alive" = VStr "1m").
Proof.
  cbv zeta. intros Hok.
  destruct (search_ok_run S2N N2S es req_body Hok)
    as (body & resp & hits & H).
  cbv zeta in H. destruct H as (Hc & Hp & Hs & _ & ->).
  destruct (compose_body_inv _ _ _ _ _ _ _ _ _ _ Hc)
    as (must & filter & n & props & _ & _ & _ & -> & _).
  eexists. exists resp. cbn [fst snd payload res_json].
  split; [reflexivity|]. split; [exact Hs|].
  change (prop (prop (success_payload resp ?i ?k hits) "pit") "id")
    with (or_else (opt (prop resp "body") "pit_id") i).
  change (prop (prop (success_payload resp ?i ?k hits) "pit") "keep_alive")
    with k.
  change (prop (VObj ["body" =: ?b]) "body") with b.
  rewrite attach_pagination_pit.
  unfold or_else at 1 2 3.
  split; [intros ->; reflexivity|]. split; [intros ->; reflexivity|].
  split.
  { destruct (truthy (opt (prop resp "body") "pit_id")) eqn:E;
      [exact E|exact Hp]. }
  split; [reflexivity|].
  unfold keep_alive_of, or_else. split; intros ->; reflexivity.
Qed.

Lemma pit_threaded_through_witness :
  prop (prop (payload (snd (search_handler S2N_words N2S_unused es_rotating
                              (page_of "pit-A")))) "pit") "id"
  = VStr "pit-A2"
  /\ prop (prop (payload (snd (search_handler S2N_words N2S_unused es_rotating
                                 (page_of "pit-A")))) "pit") "keep_alive"
     = VStr "1m".
Proof.
  destruct (pit_threaded_through S2N_words N2S_unused es_rotating
              (page_of "pit-A") eq_refl)
    as (params & resp & _ & Hs & Hrot & _ & _ & _ & _ & Hka).
  injection Hs as <-.
  split; [exact (Hrot eq_refl)|exact (Hka eq_refl)].
Defined.

(** X15.  The response and nothing else is needed to ask for the next
    page.  Sending back the [pit] and the [nextCursor] of a successful
    response makes one search call, on whatever engine, that carries the
    response's [pit.id] and [pit.keep_alive], and the [nextCursor] as
    [search_after] when it is a non-empty list; after an empty page, whose
    [nextCursor] is [null], no [search_after] is sent. *)
Theorem follow_up_carries_page
  (S2N : jsstring -> number) (N2S : number -> jsstring) (es es' : Client)
  (req_body : value) :
  let out := payload (snd (search_handler S2N N2S es req_body)) in
  prop out "ok" = VTrue ->
  exists sent,
    fst (search_handler S2N N2S es' (follow_up out))
    = [Search (VObj ["body" =: sent])]
    /\ prop (prop sent "pit") "id" = prop (prop out "pit") "id"
    /\ prop (prop sent "pit") "keep_alive" = prop (prop out "pit") "keep_alive"
    /\ ((exists x xs, prop out "nextCursor" = VArr (x :: xs)) ->
        prop sent "search_after" = prop out "nextCursor")
    /\ (prop out "nextCursor" = VNull -> prop sent "search_after" = VUndef).
Proof.
  cbv zeta. intros Hok.
  destruct (search_ok_run S2N N2S es req_body Hok)
    as (body & resp & hits & H).
  cbv zeta in H. destruct H as (_ & Hp & _ & _ & ->).
  cbn [snd payload res_json].
  set (out := success_payload resp (opt (pit (destructure req_body)) "id")
                (keep_alive_of (pit (destructure req_body))) hits).
  assert (Hpit : pit (destructure (follow_up out)) = prop out "pit")
    by reflexivity.
  assert (Hcur : cursor (destructure (follow_up out)) = prop out "nextCursor")
    by reflexivity.
  assert (Hid : opt (prop out "pit") "id" = prop (prop out "pit") "id")
    by reflexivity.
  assert (Hidt : truthy (prop (prop out "pit") "id") = true).
  { change (prop (prop out "pit") "id")
      with (or_else (opt (prop resp "body") "pit_id")
              (opt (pit (destructure req_body)) "id")).
    unfold or_else.
    destruct (truthy (opt (prop resp "body") "pit_id")) eqn:E;
      [exact E|exact Hp]. }
  assert (Hka : keep_alive_of (prop out "pit")
                = prop (prop out "pit") "keep_alive").
  { change (keep_alive_of (prop out "pit"))
      with (or_else (keep_alive_of (pit (destructure req_body))) (VStr "1m")).
    unfold or_else at 1. now rewrite keep_alive_truthy. }
  destruct (compose_plain_request S2N N2S (destructure (follow_up out))
              (s := default_q) (n := num_of_Z 100) eq_refl eq_refl eq_refl)
    as [body' Hc'].
  assert (Hp' : truthy (opt (pit (destructure (follow_up out))) "id") = true)
    by (rewrite Hpit, Hid; exact Hidt).
  pose proof (search_try_next_page S2N N2S es' (follow_up out) Hc' Hp') as Ht.
  cbv zeta in Ht.
  pose proof Hc' as Hb. unfold compose in Hb.
  destruct (compose_body_inv _ _ _ _ _ _ _ _ _ _ Hb)
    as (must & filter & n & props & _ & _ & _ & -> & _ & _ & _ & _ & Hsa & _).
  clear Hb. eexists. split.
  - unfold search_handler, handle. rewrite Ht.
    destruct (cbind _ _); reflexivity.
  - rewrite attach_pagination_pit.
    rewrite (attach_pagination_cursor _ _ _ _ Hsa).
    rewrite Hpit, Hcur, Hid, Hka.
    split; [reflexivity|]. split; [reflexivity|].
    split.
    + intros Hne. apply cursor_attached in Hne. now rewrite Hne.
    + intros ->. reflexivity.
Qed.

Lemma follow_up_carries_page_witness :
  exists sent,
    fst (search_handler S2N_words N2S_unused es_two_pits
           (follow_up (payload (snd (search_handler S2N_words N2S_unused
                                       es_rotating (page_of "pit-A"))))))
    = [Search (VObj ["body" =: sent])]
    /\ prop (prop sent "pit") "id" = VStr "pit-A2"
    /\ prop sent "search_after" = example_cursor.
Proof.
  destruct (follow_up_carries_page S2N_words N2S_unused es_rotating es_two_pits
              (page_of "pit-A") eq_refl)
    as (sent & Hcalls & Hid & _ & Hcur & _).
  exists sent. split; [exact Hcalls|]. split.
  - rewrite Hid. reflexivity.
  - rewrite Hcur; [reflexivity|]. eexists; eexists; reflexivity.
Defined.

(* ================================================================== *)
(** * Further properties of the body sent *)
(* ================================================================== *)

(** The fixed query wrapper around the legs and the filter. *)
Lemma compose_body_stages
  (S2N : jsstring -> number) (N2S : number -> jsstring)
  q time levels services size highlight includeTimeline includeFacets body :
  compose_body S2N N2S q time levels services size highlight includeTimeline
    includeFacets = Normal body ->
  exists must filter props,
    build_must N2S q = Normal must
    /\ build_filter time levels services = Normal filter
    /\ body = VObj props
    /\ lookup "highlight" props
       = (if truthy highlight then Some highlight_stage else None)
    /\ lookup "track_total_hits" props = Some VTrue
    /\ lookup "sort" props
       = Some (VArr [VObj ["@timestamp" =: VStr "desc"];
                     VObj ["_shard_doc" =: VStr "desc"]])
    /\ lookup "_source" props
       = Some (VObj ["includes" =: VArr [
                 VStr "@timestamp"; VStr "level"; VStr "service";
                 VStr "error.code"; VStr "host"; VStr "path"; VStr "message"]])
    /\ lookup "query" props
       = Some (VObj ["function_score" =: VObj [
                 "query" =: VObj ["bool" =: VObj ["must" =: must;
                                                  "filter" =: filter]];
                 "functions" =: VArr [
                   VObj ["exp" =: VObj ["@timestamp" =: VObj [
                     "origin" =: VStr "now"; "scale" =: VStr "2h";
                     "decay" =: VNum (Fin (6 # 10)) ]]] ];
                 "score_mode" =: VStr "multiply";
                 "boost_mode" =: VStr "multiply" ]]).
Proof.
  unfold compose_body.
  destruct (build_must N2S q) as [must|e]; [|discriminate].
  destruct (build_filter time levels services) as [filter|e]; [|discriminate].
  destruct (body_size S2N N2S size) as [n|e]; [|discriminate].
  cbn [cbind]. cbv zeta.
  destruct (truthy highlight), (truthy includeFacets), (truthy includeTimeline);
    intros H; injection H as <-;
    exists must, filter; eexists;
    (split; [reflexivity|]); (split; [reflexivity|]); (split; [reflexivity|]);
    repeat split; reflexivity.
Qed.



(** X17.  Whatever the request, the body of every search call asks for
    exact totals, sorts by timestamp then shard document, both
    descending, returns the seven whitelisted source fields only, and
    wraps the two legs and the filter, all required, in the same decay
    function. *)
Theorem search_body_fixed_parts
  (S2N : jsstring -> number) (N2S : number -> jsstring) (es : Client)
  (req_body params : value) :
  let r := destructure req_body in
  In (Search params) (fst (search_handler S2N N2S es req_body)) ->
  exists must filter,
    build_must N2S (q r) = Normal must
    /\ build_filter (time r) (levels r) (services r) = Normal filter
    /\ prop (prop params "body") "track_total_hits" = VTrue
    /\ prop (prop params "body") "sort"
       = VArr [VObj ["@timestamp" =: VStr "desc"];
               VObj ["_shard_doc" =: VStr "desc"]]
    /\ prop (prop params "body") "_source"
       = VObj ["includes" =: VArr [
                 VStr "@timestamp"; VStr "level"; VStr "service";
                 VStr "error.code"; VStr "host"; VStr "path"; VStr "message"]]
    /\ prop (prop params "body") "query"
       = VObj ["function_score" =: VObj [
                 "query" =: VObj ["bool" =: VObj ["must" =: must;
                                                  "filter" =: filter]];
                 "functions" =: VArr [
                   VObj ["exp" =: VObj ["@timestamp" =: VObj [
                     "origin" =: VStr "now"; "scale" =: VStr "2h";
                     "decay" =: VNum (Fin (6 # 10)) ]]] ];
                 "score_mode" =: VStr "multiply";
                 "boost_mode" =: VStr "multiply" ]].
Proof.
  cbv zeta. intros Hin.
  destruct (compose S2N N2S (destructure req_body)) as [body|e] eqn:Hc.
  2:{ unfold search_handler in Hin.
      rewrite (handle_throw _ _ (search_try_compose_throws S2N N2S es _ Hc))
        in Hin. destruct Hin. }
  destruct (truthy (opt (pit (destructure req_body)) "id")) eqn:Hp.
  2:{ unfold search_handler in Hin.
      rewrite (handle_throw _ _ (search_try_first_page S2N N2S es _ Hc Hp))
        in Hin. destruct Hin. }
  pose proof (search_try_next_page S2N N2S es req_body Hc Hp) as Ht.
  cbv zeta in Ht. unfold search_handler, handle in Hin. rewrite Ht in Hin.
  unfold compose in Hc.
  destruct (compose_body_stages _ _ _ _ _ _ _ _ _ _ Hc)
    as (must & filter & props & Hm & Hf & -> & _ & Ht' & Hs & Hsrc & Hq).
  assert (Hp' : params
                = VObj ["body" =: attach_pagination (VObj props)
                          (opt (pit (destructure req_body)) "id")
                          (keep_alive_of (pit (destructure req_body)))
                          (cursor (destructure req_body))]).
  { destruct (cbind _ _) in Hin; destruct Hin as [[= <-]|[]]; reflexivity. }
  exists must, filter. split; [exact Hm|]. split; [exact Hf|].
  rewrite Hp'. change (prop (VObj ["body" =: ?b]) "body") with b.
  rewrite !attach_pagination_other by reflexivity.
  cbn [prop]. now rewrite Ht', Hs, Hsrc, Hq.
Qed.

Lemma search_body_fixed_parts_witness :
  exists params,
    fst (search_handler S2N_words N2S_unused es_two_pits (page_of "pit-A"))
    = [Search params]
    /\ prop (prop params "body") "track_total_hits" = VTrue
    /\ prop (prop params "body") "sort"
       = VArr [VObj ["@timestamp" =: VStr "desc"];
               VObj ["_shard_doc" =: VStr "desc"]].
Proof.
  eexists. split; [vm_compute; reflexivity|].
  match goal with |- prop (prop ?p _) _ = _ /\ _ => set (params := p) end.
  destruct (search_body_fixed_parts S2N_words N2S_unused es_two_pits
              (page_of "pit-A") params)
    as (must & filter & _ & _ & Ht & Hs & _).
  { left. vm_compute. reflexivity. }
  split; [exact Ht|exact Hs].
Defined.

(* ================================================================== *)
(** * Further properties of the facets *)
(* ================================================================== *)




(* ================================================================== *)
(** * The shape of every response *)
(* ================================================================== *)

Lemma error_response_well_formed (fallback : string) (err : value) :
  fallback <> EmptyString ->
  prop (payload (error_response fallback err)) "ok" = VFalse
  /\ truthy (prop (payload (error_response fallback err)) "error") = true
  /\ truthy (status (error_response fallback err)) = true.
Proof.
  intros Hf.
  destruct (error_response_cases fallback err) as [Hs Hp]. cbv zeta in Hs, Hp.
  rewrite Hs, Hp. split; [reflexivity|]. split.
  - change (prop (VObj ["ok" =: VFalse; "error" =: ?e]) "error") with e.
    destruct (truthy (opt (opt (opt err "meta") "body") "error")) eqn:E1;
      [exact E1|].
    destruct (truthy (opt err "message")) eqn:E2; [exact E2|].
    destruct fallback; [congruence|reflexivity].
  - destruct (truthy (opt err "statusCode")) eqn:E1; [exact E1|].
    destruct (truthy (opt (opt err "meta") "statusCode")) eqn:E2;
      [exact E2|reflexivity].
Qed.

(** X19.  Every response of either route is one of two things: a
    success, with status 200 and [ok: true], or a failure, with
    [ok: false], a status that is never missing or zero and an [error]
    that is never missing or empty. *)
Theorem responses_well_formed
  (S2N : jsstring -> number) (N2S : number -> jsstring) (es : Client)
  (req_body : value) :
  let well_formed (r : response) :=
    (status r = VInt 200 /\ prop (payload r) "ok" = VTrue)
    \/ (prop (payload r) "ok" = VFalse
        /\ truthy (prop (payload r) "error") = true
        /\ truthy (status r) = true) in
  well_formed (snd (search_handler S2N N2S es req_body))
  /\ well_formed (snd (close_pit_handler es req_body)).
Proof.
  cbv zeta. split.
  - unfold search_handler.
    destruct (compose S2N N2S (destructure req_body)) as [body|e] eqn:Hc.
    2:{ rewrite (handle_throw _ _ (search_try_compose_throws S2N N2S es _ Hc)).
        right. apply error_response_well_formed. discriminate. }
    destruct (truthy (opt (pit (destructure req_body)) "id")) eqn:Hp.
    2:{ rewrite (handle_throw _ _ (search_try_first_page S2N N2S es _ Hc Hp)).
        right. apply error_response_well_formed. discriminate. }
    pose proof (search_try_next_page S2N N2S es req_body Hc Hp) as Ht.
    cbv zeta in Ht. unfold handle. rewrite Ht.
    destruct (search es _) as [resp|e]; cbn [cbind].
    2:{ right. apply error_response_well_formed. discriminate. }
    destruct (project_hits resp) as [hits|e]; cbn [cbind].
    2:{ right. apply error_response_well_formed. discriminate. }
    left. split; reflexivity.
  - unfold close_pit_handler, close_pit_try, handle.
    destruct (truthy (opt req_body "id")); cbn [negb].
    + unfold bind, await, ret. cbn [app].
      destruct (closePointInTime es _) as [a|e].
      * left. split; reflexivity.
      * right. apply error_response_well_formed. discriminate.
    + right. repeat split.
Qed.


(* ================================================================== *)
(** * The hits of a response *)
(* ================================================================== *)

Lemma map_c_Forall2 {A B} (f : A -> completion B) (l : list A) (l' : list B) :
  map_c f l = Normal l' -> Forall2 (fun x y => f x = Normal y) l l'.
Proof.
  revert l'. induction l as [|a l IH]; intros l'; cbn [map_c].
  - intros [= <-]. constructor.
  - destruct (f a) as [b|e] eqn:Ha; cbn [cbind]; [|discriminate].
    destruct (map_c f l) as [bs|e]; cbn [cbind]; [|discriminate].
    intros [= <-]. constructor; [exact Ha|now apply IH].
Qed.

(** X11.  The hits of a successful response are the hits of the engine
    answer to its search call, one for one and in the same order: as
    many, and the hit at each position carries the [_id], the [sort], the
    [_score] and the [_source.message] of the engine hit at that
    position. *)
Theorem hits_projected_in_order
  (S2N : jsstring -> number) (N2S : number -> jsstring) (es : Client)
  (req_body : value) :
  let out := payload (snd (search_handler S2N N2S es req_body)) in
  prop out "ok" = VTrue ->
  exists params resp engine hits,
    fst (search_handler S2N N2S es req_body) = [Search params]
    /\ search es params = Normal resp
    /\ engine_hits resp = VArr engine
    /\ prop out "hits" = VArr hits
    /\ List.length hits = List.length engine
    /\ forall i h,
         nth_error engine i = Some h ->
         exists h',
           nth_error hits i = Some h'
           /\ prop h' "id" = prop h "_id"
           /\ prop h' "sort" = prop h "sort"
           /\ prop h' "score" = prop h "_score"
           /\ prop h' "message" = opt (prop h "_source") "message".
Proof.
  cbv zeta. intros Hok.
  destruct (search_ok_run S2N N2S es req_body Hok)
    as (body & resp & hits & H).
  cbv zeta in H. destruct H as (_ & _ & Hs & Hh & ->).
  destruct (project_hits_positions resp Hh) as (engine & He & Hlen & Hnth).
  eexists. exists resp, engine, hits. cbn [fst snd payload res_json].
  split; [reflexivity|]. split; [exact Hs|]. split; [exact He|].
  split; [reflexivity|]. split; [exact Hlen|exact Hnth].
Qed.

Lemma hits_projected_in_order_witness :
  exists hits h',
    prop (payload (snd (search_handler S2N_words N2S_unused es_rotating
                          (page_of "pit-A")))) "hits" = VArr hits
    /\ List.length hits = 2%nat
    /\ nth_error hits 1 = Some h'
    /\ prop h' "id" = VStr "doc#42"
    /\ prop h' "sort" = example_cursor.
Proof.
  destruct (hits_projected_in_order S2N_words N2S_unused es_rotating
              (page_of "pit-A") eq_refl)
    as (params & resp & engine & hits & _ & Hs & He & Hh & Hlen & Hnth).
  injection Hs as <-. injection He as <-.
  destruct (Hnth 1%nat _ eq_refl) as (h' & Hi & Hid & Hsort & _).
  exists hits, h'. split; [exact Hh|]. split; [exact Hlen|].
  split; [exact Hi|]. split; [exact Hid|exact Hsort].
Defined.

(** X12.  The mapping of the hits goes through exactly when the engine
    answer is neither [null] nor [undefined], what it holds at the place
    of the hits is a list (or nothing truthy), and no entry of that list is
    [null] or [undefined].  Otherwise it throws: whenever the search call
    of a run is answered and the mapping of that answer throws, the
    response of the route is the error response for what was thrown, and
    the search call is the one call of the run. *)
Theorem project_hits_defined_iff
  (S2N : jsstring -> number) (N2S : number -> jsstring) (es : Client)
  (req_body : value) :
  (forall resp,
      (exists hits, project_hits resp = Normal hits)
      <-> nullish resp = false
          /\ exists engine,
               engine_hits resp = VArr engine
               /\ forallb (fun h => negb (nullish h)) engine = true)
  /\ (forall body resp err,
        let r := destructure req_body in
        let params :=
          VObj ["body" =: attach_pagination body (opt (pit r) "id")
                            (keep_alive_of (pit r)) (cursor r)] in
        compose S2N N2S r = Normal body ->
        truthy (opt (pit r) "id") = true ->
        search es params = Normal resp ->
        project_hits resp = Throw err ->
        search_handler S2N N2S es req_body
        = ([Search params], error_response "Search error" err)).
Proof.
  split; [exact project_hits_defined_cases|].
  cbv zeta. intros body resp err Hc Hp Hs Hh.
  pose proof (search_try_next_page S2N N2S es req_body Hc Hp) as Ht.
  cbv zeta in Ht. rewrite Hs in Ht. cbn [cbind] in Ht. rewrite Hh in Ht.
  cbn [cbind] in Ht.
  unfold search_handler. now rewrite (handle_throw _ _ Ht).
Qed.

Lemma project_hits_defined_iff_witness :
  (exists e, project_hits (engine_answer [VNull] None) = Throw e)
  /\ exists params,
       search_handler S2N_words N2S_unused es_null_hit (page_of "pit-A")
       = ([Search params],
          {| status := VInt 500;
             payload := VObj [
               "ok" =: VFalse;
               "error" =:
                 VStr "Cannot read properties of null (reading '_id')"] |}).
Proof.
  destruct (project_hits_defined_iff S2N_words N2S_unused es_null_hit
              (page_of "pit-A")) as [Hiff Hroute].
  split.
  - destruct (project_hits (engine_answer [VNull] None)) as [hits|e] eqn:E;
      [|now exists e].
    assert (H : exists hits,
               project_hits (engine_answer [VNull] None) = Normal hits)
      by now exists hits.
    apply Hiff in H as (_ & engine & He & Hall).
    injection He as <-. discriminate Hall.
  - destruct (compose S2N_words N2S_unused (destructure (page_of "pit-A")))
      as [body|e] eqn:Hc; [|discriminate].
    eexists.
    rewrite (Hroute body (engine_answer [VNull] None)
               (TypeError "Cannot read properties of null (reading '_id')")
               Hc eq_refl eq_refl eq_refl).
    reflexivity.
Defined.

Lemma not_among_cons (k w : jsstring) (keys : list jsstring) :
  not_among k (w :: keys) = true ->
  str_eqb w k = false /\ not_among k keys = true.
Proof.
  unfold not_among. cbn [forallb]. intros H.
  apply andb_true_iff in H as [Hw Hk]. apply negb_true_iff in Hw. now split.
Qed.

(** A property the mapping does not read does not change the mapped
    hit. *)
Lemma project_hit_ignores_unread props k v :
  not_among k hit_reads = true ->
  project_hit (VObj (assign props k v)) = project_hit (VObj props).
Proof.
  intros H. unfold hit_reads in H.
  apply not_among_cons in H as [H1 H].
  apply not_among_cons in H as [H2 H].
  apply not_among_cons in H as [H3 H].
  apply not_among_cons in H as [H4 H].
  apply not_among_cons in H as [H5 _].
  unfold project_hit. cbn [member cbind].
  change (VObj (assign props k v)) with (set_prop (VObj props) k v).
  rewrite (prop_set_other props k "_id" v H1).
  rewrite (prop_set_other props k "sort" v H2).
  rewrite (prop_set_other props k "_source" v H3).
  rewrite (prop_set_other props k "highlight" v H4).
  rewrite (prop_set_other props k "_score" v H5).
  reflexivity.
Qed.

Lemma opt_set_other sprops k (w : string) v :
  str_eqb w k = false ->
  opt (VObj (assign sprops k v)) w = opt (VObj sprops) w.
Proof.
  intros H. unfold opt. cbn [nullish].
  change (VObj (assign sprops k v)) with (set_prop (VObj sprops) k v).
  now rewrite prop_set_other.
Qed.

Lemma project_hit_ignores_unread_source props sprops k v :
  lookup "_source" props = Some (VObj sprops) ->
  not_among k source_reads = true ->
  project_hit (VObj (assign props "_source" (VObj (assign sprops k v))))
  = project_hit (VObj props).
Proof.
  intros Hsrc H. unfold source_reads in H.
  apply not_among_cons in H as [H1 H].
  apply not_among_cons in H as [H2 H].
  apply not_among_cons in H as [H3 H].
  apply not_among_cons in H as [H4 H].
  apply not_among_cons in H as [H5 H].
  apply not_among_cons in H as [H6 H].
  apply not_among_cons in H as [H7 _].
  assert (Es : prop (VObj props) "_source" = VObj sprops)
    by (cbn [prop]; now rewrite Hsrc).
  unfold project_hit. cbn [member cbind].
  rewrite Es.
  change (VObj (assign props "_source" ?x))
    with (set_prop (VObj props) "_source" x).
  rewrite prop_set_same.
  rewrite !prop_set_other by reflexivity.
  rewrite (opt_set_other sprops k "@timestamp" v H1).
  rewrite (opt_set_other sprops k "level" v H2).
  rewrite (opt_set_other sprops k "service" v H3).
  rewrite (opt_set_other sprops k "error" v H4).
  rewrite (opt_set_other sprops k "host" v H5).
  rewrite (opt_set_other sprops k "path" v H6).
  rewrite (opt_set_other sprops k "message" v H7).
  reflexivity.
Qed.

(** X13.  Every hit of a successful response is the mapping of the
    engine hit at its position and holds exactly the eleven properties of
    the mapping.  Nothing else of the engine hit reaches the client: a
    property of an engine hit other than [_id], [sort], [_source],
    [highlight] and [_score], and a property of its [_source] other than
    [@timestamp], [level], [service], [error], [host], [path] and
    [message], can be set to anything without changing the mapped hit. *)
Theorem response_hits_whitelisted
  (S2N : jsstring -> number) (N2S : number -> jsstring) (es : Client)
  (req_body : value) :
  let out := payload (snd (search_handler S2N N2S es req_body)) in
  (prop out "ok" = VTrue ->
   exists params resp engine hits,
     fst (search_handler S2N N2S es req_body) = [Search params]
     /\ search es params = Normal resp
     /\ engine_hits resp = VArr engine
     /\ prop out "hits" = VArr hits
     /\ Forall2 (fun h h' =>
                   project_hit h = Normal h'
                   /\ exists props, h' = VObj props /\ map fst props = hit_keys)
                engine hits)
  /\ (forall props k v,
        not_among k hit_reads = true ->
        project_hit (VObj (assign props k v)) = project_hit (VObj props))
  /\ (forall props sprops k v,
        lookup "_source" props = Some (VObj sprops) ->
        not_among k source_reads = true ->
        project_hit (VObj (assign props "_source" (VObj (assign sprops k v))))
        = project_hit (VObj props)).
Proof.
  cbv zeta. split; [|split].
  - intros Hok.
    destruct (search_ok_run S2N N2S es req_body Hok)
      as (body & resp & hits & H).
    cbv zeta in H. destruct H as (_ & _ & Hs & Hh & ->).
    destruct (nullish resp) eqn:Hn.
    { destruct (project_hits_nullish resp Hn) as [e He]. congruence. }
    rewrite (project_hits_eq resp Hn) in Hh.
    destruct (engine_hits resp) as [| | | | |engine|] eqn:He; try discriminate.
    eexists. exists resp, engine, hits. cbn [fst snd payload res_json].
    split; [reflexivity|]. split; [exact Hs|]. split; [exact He|].
    split; [reflexivity|].
    apply map_c_Forall2 in Hh.
    eapply Forall2_impl; [|exact Hh].
    intros h h' Hp. cbv beta in Hp.
    split; [exact Hp|]. unfold project_hit in Hp.
    destruct (member h "_id"); cbn [cbind] in Hp; [|discriminate].
    injection Hp as <-. eexists. split; reflexivity.
  - exact project_hit_ignores_unread.
  - exact project_hit_ignores_unread_source.
Qed.

Lemma response_hits_whitelisted_witness :
  (exists hits,
     prop (payload (snd (search_handler S2N_words N2S_unused es_rotating
                           (page_of "pit-A")))) "hits" = VArr hits
     /\ List.length hits = 2%nat)
  /\ project_hit
       (VObj ["_id" =: VStr "doc#42";
              "_source" =: VObj ["message" =: VStr "timeout";
                                 "user" =: VStr "alice"]])
     = project_hit
         (VObj ["_id" =: VStr "doc#42";
                "_source" =: VObj ["message" =: VStr "timeout"]]).
Proof.
  destruct (response_hits_whitelisted S2N_words N2S_unused es_rotating
              (page_of "pit-A")) as (Hroute & _ & Hsrc).
  split.
  - destruct (Hroute eq_refl)
      as (params & resp & engine & hits & _ & Hs & He & Hh & Hall).
    injection Hs as <-. injection He as <-.
    exists hits. split; [exact Hh|].
    apply Forall2_length in Hall. now rewrite <- Hall.
  - apply (Hsrc ["_id" =: VStr "doc#42";
                 "_source" =: VObj ["message" =: VStr "timeout"]]
                ["message" =: VStr "timeout"] (lit "user") (VStr "alice")
                eq_refl eq_refl).
Defined.
